(** * pps-gpio: PPS client driver using a GPIO line

    A shallow embedding of [drivers/pps/clients/pps-gpio.c].  The driver's C
    functions become programs of a small state monad over an explicit kernel
    state; every function of the kernel API the driver calls is a primitive of
    that monad whose answer is supplied by a [host] (the hardware and the rest
    of the kernel), so that each statement below is quantified over all the
    answers the driver can receive. *)

From Stdlib Require Import ZArith Lia.
From stdpp Require Import base decidable option list gmap strings sorting.

Module PpsGpio.

(** ** Constants taken from kernel headers

    [linux/interrupt.h] and [linux/pps.h] are not part of the driver; the
    macros it uses are parameters of the development. *)

Class kernel_headers := KernelHeaders {
  CONFIG_OF : bool;
  IRQF_TRIGGER_RISING : Z;
  IRQF_TRIGGER_FALLING : Z;
  PPS_CAPTUREASSERT : Z;
  PPS_CAPTURECLEAR : Z;
  PPS_OFFSETASSERT : Z;
  PPS_OFFSETCLEAR : Z;
  PPS_ECHOASSERT : Z;
  PPS_ECHOCLEAR : Z;
  PPS_CANWAIT : Z;
  PPS_TSFMT_TSPEC : Z;
  PPS_MAX_NAME_LEN : Z;
}.

Definition PPS_GPIO_NAME : string := "pps-gpio".

(** Kernel addresses; [None] at type [option addr] is the NULL pointer. *)
Abbreviation addr := positive.

(** Error numbers the driver returns, negated, from [probe]. *)
Inductive errno := ENODEV | EINVAL | ENOMEM.

(** The value of an [int] status: [0] or [-errno]. *)
Inductive status := Success | Failure (e : errno).

Inductive irqreturn_t := IRQ_NONE | IRQ_HANDLED | IRQ_WAKE_THREAD.

(** ** Data *)

(** [struct pps_gpio_platform_data] of [linux/pps-gpio.h], with the fields the
    driver reads and writes. *)
Record pps_gpio_platform_data := PlatformData {
  assert_falling_edge : bool;
  capture_clear : bool;
  gpio_pin : Z;
  gpio_label : option string;
}.

(** The fields of [struct pps_source_info] the driver initialises. *)
Record pps_source_info := SourceInfo {
  name : string;
  mode : Z;
  owner : bool;
}.

(** Info for each registered platform device.  [pdata] points to constant
    platform data; the model stores what it points to. *)
Record pps_gpio_device_data := DeviceData {
  irq : Z;
  pps : option addr;
  info : pps_source_info;
  pdata : option pps_gpio_platform_data;
}.

(** What [kzalloc] and [devm_kzalloc] hand out: all fields zero. *)
Definition zero_pdata : pps_gpio_platform_data :=
  PlatformData false false 0 None.
Definition zero_info : pps_source_info := SourceInfo "" 0 false.
Definition zero_data : pps_gpio_device_data :=
  DeviceData 0 None zero_info None.

(** One call of [pps_event]: the source, the time stamp, the event mask and
    the echo payload. *)
Record pps_capture := Capture {
  cap_pps : option addr;
  cap_ts : Z;
  cap_event : Z;
  cap_data : option addr;
}.

(** Device-managed resources, released by the driver core when [probe] fails
    and after [remove]. *)
Inductive devres := DR_kzalloc | DR_pinctrl | DR_irq (n : Z).

(** A registered interrupt line: trigger flags, name and [dev_id]. *)
Record irqaction := IrqAction {
  act_flags : Z;
  act_name : string;
  act_dev_id : option addr;
}.

(** Calls into the kernel, in the order the driver makes them. *)
Inductive call :=
| Call_pps_get_ts (ts : Z)
| Call_gpio_get_value (pin v : Z)
| Call_pps_event (c : pps_capture)
| Call_gpio_request (pin : Z) (label : option string) (ret : Z)
| Call_gpio_direction_input (pin ret : Z)
| Call_gpio_free (pin : Z)
| Call_gpio_to_irq (pin ret : Z)
| Call_kzalloc (ret : option addr)
| Call_kfree (p : option addr)
| Call_pps_register_source (i : pps_source_info) (params : Z) (ret : option addr)
| Call_pps_unregister_source (p : option addr)
| Call_devm_request_irq (n flags : Z) (nm : string) (dev_id : option addr) (ret : Z)
| Call_devm_kzalloc (ok : bool)
| Call_devm_pinctrl (err : bool)
| Call_of_match_device (found : bool)
| Call_of_get_gpio (ret : Z)
| Call_of_get_property (prop : string) (found : bool)
| Call_printk (msg : string).

(** ** Kernel state *)

Record kernel := Kernel {
  gpio_claimed : gset Z;
  kmem : gmap positive pps_gpio_device_data;
  pps_sources : gmap positive (pps_source_info * Z);
  irq_actions : gmap Z irqaction;
  managed : list devres;
  platform_data : option pps_gpio_platform_data;
  drvdata : option addr;
  delivered : list pps_capture;
  trace : list call;
}.

(** The answers of the hardware and of the rest of the kernel.  The clock,
    the line and the PPS consumer change with time: they are indexed by the
    number of kernel calls made so far. *)
Record host := Host {
  now : nat → Z;
  line_level : nat → Z → Z;
  consumer_up : nat → bool;
  dt_match : bool;
  dt_gpio : Z;
  dt_assert_falling_edge : bool;
  devm_kzalloc_ok : bool;
  pinctrl_err : bool;
  gpio_request_ret : Z → Z;
  gpio_direction_input_ret : Z → Z;
  gpio_to_irq_ret : Z → Z;
  kzalloc_ok : bool;
  pps_register_ok : bool;
  request_irq_ret : Z;
  pdev_name : string;
  pdev_id : Z;
  snprintf : Z → string → Z → string;
}.

Definition with_gpio_claimed (f : gset Z → gset Z) (k : kernel) : kernel :=
  Kernel (f (gpio_claimed k)) (kmem k) (pps_sources k) (irq_actions k)
    (managed k) (platform_data k) (drvdata k) (delivered k) (trace k).
Definition with_kmem
    (f : gmap positive pps_gpio_device_data → gmap positive pps_gpio_device_data)
    (k : kernel) : kernel :=
  Kernel (gpio_claimed k) (f (kmem k)) (pps_sources k) (irq_actions k)
    (managed k) (platform_data k) (drvdata k) (delivered k) (trace k).
Definition with_pps_sources
    (f : gmap positive (pps_source_info * Z) → gmap positive (pps_source_info * Z))
    (k : kernel) : kernel :=
  Kernel (gpio_claimed k) (kmem k) (f (pps_sources k)) (irq_actions k)
    (managed k) (platform_data k) (drvdata k) (delivered k) (trace k).
Definition with_irq_actions
    (f : gmap Z irqaction → gmap Z irqaction) (k : kernel) : kernel :=
  Kernel (gpio_claimed k) (kmem k) (pps_sources k) (f (irq_actions k))
    (managed k) (platform_data k) (drvdata k) (delivered k) (trace k).
Definition with_managed (f : list devres → list devres) (k : kernel) : kernel :=
  Kernel (gpio_claimed k) (kmem k) (pps_sources k) (irq_actions k)
    (f (managed k)) (platform_data k) (drvdata k) (delivered k) (trace k).
Definition with_platform_data (v : option pps_gpio_platform_data) (k : kernel) : kernel :=
  Kernel (gpio_claimed k) (kmem k) (pps_sources k) (irq_actions k)
    (managed k) v (drvdata k) (delivered k) (trace k).
Definition with_drvdata (v : option addr) (k : kernel) : kernel :=
  Kernel (gpio_claimed k) (kmem k) (pps_sources k) (irq_actions k)
    (managed k) (platform_data k) v (delivered k) (trace k).
Definition with_delivered
    (f : list pps_capture → list pps_capture) (k : kernel) : kernel :=
  Kernel (gpio_claimed k) (kmem k) (pps_sources k) (irq_actions k)
    (managed k) (platform_data k) (drvdata k) (f (delivered k)) (trace k).
Definition with_trace (f : list call → list call) (k : kernel) : kernel :=
  Kernel (gpio_claimed k) (kmem k) (pps_sources k) (irq_actions k)
    (managed k) (platform_data k) (drvdata k) (delivered k) (f (trace k)).

(** ** The monad of driver code

    A computation either returns ([Done]) or dereferences a pointer that is
    NULL or no longer allocated ([Oops]); both come with the kernel state
    reached. *)

Inductive result (A : Type) := Done (a : A) | Oops.
Arguments Done {A} a.
Arguments Oops {A}.

Definition K (A : Type) : Type := kernel → result A * kernel.

#[export] Instance K_ret : MRet K := λ A a k, (Done a, k).
#[export] Instance K_bind : MBind K := λ A B f m k,
  match m k with
  | (Done a, k') => f a k'
  | (Oops, k') => (Oops, k')
  end.

Definition oops {A} : K A := λ k, (Oops, k).
Definition modify (f : kernel → kernel) : K unit := λ k, (Done (), f k).
Definition gets {A} (f : kernel → A) : K A := λ k, (Done (f k), k).

(** [*p] for a pointer to a value the model keeps inline. *)
Definition load {A} (p : option A) : K A :=
  match p with Some v => mret v | None => oops end.

(** [*p] for a pointer into [kmalloc] memory.  Reading a block that was
    freed is undefined in C; the model makes it a fault like a read through
    NULL. *)
Definition deref (p : option addr) : K pps_gpio_device_data :=
  a ← load p; d ← gets (λ k, kmem k !! a); load d.

(** [p->field = v] on [kmalloc] memory. *)
Definition store (p : option addr)
    (f : pps_gpio_device_data → pps_gpio_device_data) : K unit :=
  a ← load p; d ← deref p; modify (with_kmem <[a := f d]>).

(** Field updates. *)
Definition set_gpio_pin (v : Z) (p : pps_gpio_platform_data) :=
  PlatformData (assert_falling_edge p) (capture_clear p) v (gpio_label p).
Definition set_gpio_label (v : option string) (p : pps_gpio_platform_data) :=
  PlatformData (assert_falling_edge p) (capture_clear p) (gpio_pin p) v.
Definition set_assert_falling_edge (v : bool) (p : pps_gpio_platform_data) :=
  PlatformData v (capture_clear p) (gpio_pin p) (gpio_label p).
Definition set_irq (v : Z) (d : pps_gpio_device_data) :=
  DeviceData v (pps d) (info d) (pdata d).
Definition set_pps (v : option addr) (d : pps_gpio_device_data) :=
  DeviceData (irq d) v (info d) (pdata d).
Definition set_pdata (v : option pps_gpio_platform_data) (d : pps_gpio_device_data) :=
  DeviceData (irq d) (pps d) (info d) v.
Definition set_info_mode (f : Z → Z) (d : pps_gpio_device_data) :=
  DeviceData (irq d) (pps d)
    (SourceInfo (name (info d)) (f (mode (info d))) (owner (info d))) (pdata d).
Definition set_info_owner (v : bool) (d : pps_gpio_device_data) :=
  DeviceData (irq d) (pps d)
    (SourceInfo (name (info d)) (mode (info d)) v) (pdata d).
Definition set_info_name (v : string) (d : pps_gpio_device_data) :=
  DeviceData (irq d) (pps d)
    (SourceInfo v (mode (info d)) (owner (info d))) (pdata d).

(** C's [|] and [&] on integers. *)
Infix ".|." := Z.lor (at level 50, left associativity).
Infix ".&." := Z.land (at level 40, left associativity).

(** A C integer used as a condition. *)
Definition truth (v : Z) : bool := negb (v =? 0)%Z.

Section Driver.
Context {hdr : kernel_headers} (h : host).

(** *** Kernel API *)

Definition emit (c : call) : K unit := modify (with_trace (λ t, t ++ [c])).
Definition step : K nat := gets (λ k, length (trace k)).

(** [pr_warning], [pr_err], [pr_info] and [dev_info]: the message, without
    the values formatted into it. *)
Definition printk (msg : string) : K unit := emit (Call_printk msg).

Definition pps_get_ts : K Z :=
  n ← step;
  emit (Call_pps_get_ts (now h n));;
  mret (now h n).

Definition gpio_get_value (pin : Z) : K Z :=
  n ← step;
  emit (Call_gpio_get_value pin (line_level h n pin));;
  mret (line_level h n pin).

(** [pps_event] returns nothing: whether the consumer took the event is not
    visible to the caller. *)
Definition pps_event (p : option addr) (ts event : Z) (data : option addr) : K unit :=
  n ← step;
  emit (Call_pps_event (Capture p ts event data));;
  if consumer_up h n
  then modify (with_delivered (λ l, l ++ [Capture p ts event data]))
  else mret ().

Definition gpio_request (pin : Z) (label : option string) : K Z :=
  emit (Call_gpio_request pin label (gpio_request_ret h pin));;
  (if truth (gpio_request_ret h pin) then mret ()
   else modify (with_gpio_claimed (λ s, {[pin]} ∪ s)));;
  mret (gpio_request_ret h pin).

Definition gpio_direction_input (pin : Z) : K Z :=
  emit (Call_gpio_direction_input pin (gpio_direction_input_ret h pin));;
  mret (gpio_direction_input_ret h pin).

Definition gpio_free (pin : Z) : K unit :=
  emit (Call_gpio_free pin);;
  modify (with_gpio_claimed (λ s, s ∖ {[pin]})).

Definition gpio_to_irq (pin : Z) : K Z :=
  emit (Call_gpio_to_irq pin (gpio_to_irq_ret h pin));;
  mret (gpio_to_irq_ret h pin).

(** [kzalloc] returns NULL or a fresh zeroed block. *)
Definition kzalloc : K (option addr) :=
  if kzalloc_ok h then
    a ← gets (λ k, fresh (dom (kmem k)));
    emit (Call_kzalloc (Some a));;
    modify (with_kmem <[a := zero_data]>);;
    mret (Some a)
  else emit (Call_kzalloc None);; mret None.

(** [kfree(NULL)] does nothing; freeing a block that is not allocated (a
    second time, say) is a fault. *)
Definition kfree (p : option addr) : K unit :=
  emit (Call_kfree p);;
  match p with
  | None => mret ()
  | Some a =>
      _ ← deref p;
      modify (with_kmem (delete a))
  end.

(** [pps_register_source] returns NULL or a new source that holds a copy of
    the source information and the default parameters. *)
Definition pps_register_source (i : pps_source_info) (default_params : Z)
    : K (option addr) :=
  if pps_register_ok h then
    a ← gets (λ k, fresh (dom (pps_sources k)));
    emit (Call_pps_register_source i default_params (Some a));;
    modify (with_pps_sources <[a := (i, default_params)]>);;
    mret (Some a)
  else emit (Call_pps_register_source i default_params None);; mret None.

(** [pps_unregister_source] dereferences its argument. *)
Definition pps_unregister_source (p : option addr) : K unit :=
  emit (Call_pps_unregister_source p);;
  a ← load p;
  src ← gets (λ k, pps_sources k !! a);
  _ ← load src;
  modify (with_pps_sources (delete a)).

Definition devm_request_irq (n flags : Z) (nm : string) (dev_id : option addr)
    : K Z :=
  emit (Call_devm_request_irq n flags nm dev_id (request_irq_ret h));;
  (if truth (request_irq_ret h) then mret ()
   else modify (with_irq_actions <[n := IrqAction flags nm dev_id]>);;
        modify (with_managed (λ l, l ++ [DR_irq n])));;
  mret (request_irq_ret h).

Definition devm_kzalloc : K (option pps_gpio_platform_data) :=
  emit (Call_devm_kzalloc (devm_kzalloc_ok h));;
  if devm_kzalloc_ok h
  then modify (with_managed (λ l, l ++ [DR_kzalloc]));; mret (Some zero_pdata)
  else mret None.

(** [IS_ERR] of what [devm_pinctrl_get_select_default] returns. *)
Definition devm_pinctrl_get_select_default : K bool :=
  emit (Call_devm_pinctrl (pinctrl_err h));;
  (if pinctrl_err h then mret ()
   else modify (with_managed (λ l, l ++ [DR_pinctrl])));;
  mret (pinctrl_err h).

Definition of_match_device : K bool :=
  emit (Call_of_match_device (dt_match h));; mret (dt_match h).

Definition of_get_gpio (index : Z) : K Z :=
  emit (Call_of_get_gpio (dt_gpio h));; mret (dt_gpio h).

Definition of_get_property (prop : string) : K bool :=
  emit (Call_of_get_property prop (dt_assert_falling_edge h));;
  mret (dt_assert_falling_edge h).

Definition platform_set_drvdata (v : option addr) : K unit :=
  modify (with_drvdata v).
Definition platform_get_drvdata : K (option addr) := gets drvdata.

(** *** Report the PPS event *)

Definition pps_gpio_irq_handler (irq_no : Z) (data : option addr) : K irqreturn_t :=
  (* Get the time stamp first *)
  ts ← pps_get_ts;
  info ← deref data;
  pd ← load (pdata info);
  rising_edge ← gpio_get_value (gpio_pin pd);
  (if (truth rising_edge && negb (assert_falling_edge pd)) ||
      (negb (truth rising_edge) && assert_falling_edge pd)
   then pps_event (pps info) ts PPS_CAPTUREASSERT None
   else if capture_clear pd &&
           ((truth rising_edge && assert_falling_edge pd) ||
            (negb (truth rising_edge) && negb (assert_falling_edge pd)))
   then pps_event (pps info) ts PPS_CAPTURECLEAR None
   else mret ());;
  mret IRQ_HANDLED.

Definition pps_gpio_setup : K status :=
  pdata_p ← gets platform_data;
  pd ← load pdata_p;
  ret ← gpio_request (gpio_pin pd) (gpio_label pd);
  if truth ret then
    printk "failed to request GPIO";;
    mret (Failure EINVAL)
  else
    ret ← gpio_direction_input (gpio_pin pd);
    if truth ret then
      printk "failed to set pin direction";;
      gpio_free (gpio_pin pd);;
      mret (Failure EINVAL)
    else mret Success.

Definition get_irqf_trigger_flags (pd : pps_gpio_platform_data) : Z :=
  let flags :=
    if assert_falling_edge pd then IRQF_TRIGGER_FALLING else IRQF_TRIGGER_RISING in
  if capture_clear pd then
    flags .|. (if truth (flags .&. IRQF_TRIGGER_RISING)
               then IRQF_TRIGGER_FALLING else IRQF_TRIGGER_RISING)
  else flags.

(** Both branches of [#ifdef CONFIG_OF]. *)
Definition of_get_pps_gpio_pdata : K (option pps_gpio_platform_data) :=
  if CONFIG_OF then
    p ← devm_kzalloc;
    match p with
    | None => mret None
    | Some pd =>
        ret ← of_get_gpio 0;
        if (ret <? 0)%Z then
          printk "failed to get GPIO from device tree";;
          mret None
        else
          let pd := set_gpio_pin ret pd in
          let pd := set_gpio_label (Some PPS_GPIO_NAME) pd in
          found ← of_get_property "assert-falling-edge";
          let pd := if (found : bool) then set_assert_falling_edge true pd else pd in
          mret (Some pd)
    end
  else mret None.

Definition is_failure (s : status) : bool :=
  match s with Success => false | Failure _ => true end.

Definition pps_gpio_probe : K status :=
  matched ← of_match_device;
  (if (matched : bool) then
     p ← of_get_pps_gpio_pdata;
     modify (with_platform_data p)
   else mret ());;
  pdata_p ← gets platform_data;
  match pdata_p with
  | None => mret (Failure ENODEV)
  | Some pd =>
  (* PINCTL setup *)
  err ← devm_pinctrl_get_select_default;
  (if (err : bool) then printk "pins are not configured from the driver" else mret ());;
  (* GPIO setup *)
  ret ← pps_gpio_setup;
  if is_failure ret then mret (Failure EINVAL) else
  (* IRQ setup *)
  irq_no ← gpio_to_irq (gpio_pin pd);
  if (irq_no <? 0)%Z then
    printk "failed to map GPIO to IRQ";;
    mret (Failure EINVAL)
  else
  (* allocate space for device info *)
  data ← kzalloc;
  match data with
  | None => mret (Failure ENOMEM)
  | Some _ =>
  (* initialize PPS specific parts of the bookkeeping data structure. *)
  store data (set_info_mode (λ _,
    PPS_CAPTUREASSERT .|. PPS_OFFSETASSERT .|.
    PPS_ECHOASSERT .|. PPS_CANWAIT .|. PPS_TSFMT_TSPEC));;
  (if capture_clear pd then
     store data (set_info_mode (λ m,
       m .|. (PPS_CAPTURECLEAR .|. PPS_OFFSETCLEAR .|. PPS_ECHOCLEAR)))
   else mret ());;
  store data (set_info_owner true);;
  store data (set_info_name
    (snprintf h (PPS_MAX_NAME_LEN - 1) (pdev_name h) (pdev_id h)));;
  (* register PPS source *)
  let pps_default_params := PPS_CAPTUREASSERT .|. PPS_OFFSETASSERT in
  let pps_default_params :=
    if capture_clear pd
    then pps_default_params .|. (PPS_CAPTURECLEAR .|. PPS_OFFSETCLEAR)
    else pps_default_params in
  d ← deref data;
  src ← pps_register_source (info d) pps_default_params;
  store data (set_pps src);;
  match src with
  | None =>
      kfree data;;
      printk "failed to register IRQ as PPS source";;
      mret (Failure EINVAL)
  | Some _ =>
  store data (set_irq irq_no);;
  store data (set_pdata (Some pd));;
  (* register IRQ interrupt handler *)
  d ← deref data;
  ret ← devm_request_irq irq_no (get_irqf_trigger_flags pd) (name (info d)) data;
  if truth ret then
    pps_unregister_source (pps d);;
    kfree data;;
    printk "failed to acquire IRQ";;
    mret (Failure EINVAL)
  else
    platform_set_drvdata data;;
    printk "Registered IRQ as PPS source";;
    mret Success
  end end end.

Definition pps_gpio_remove : K status :=
  data ← platform_get_drvdata;
  platform_set_drvdata None;;
  d ← deref data;
  pps_unregister_source (pps d);;
  d ← deref data;
  printk "removed IRQ as PPS source";;
  kfree data;;
  mret Success.

End Driver.

(** ** The host delivering edges

    Edges of one line are served one at a time, in arrival order: [n] edges
    are [n] runs of the handler, each on the state the previous one left. *)

Fixpoint handle_edges {hdr : kernel_headers} (h : host) (n : nat)
    (irq_no : Z) (data : option addr) : K (list irqreturn_t) :=
  match n with
  | O => mret []
  | S n' =>
      r ← pps_gpio_irq_handler h irq_no data;
      rs ← handle_edges h n' irq_no data;
      mret (r :: rs)
  end.

(** ** Vocabulary of the specification *)

Inductive LogicLevel := High | Low.
Inductive EventKind := Assert | Clear | Ignored.

(** The level [gpio_get_value] reports: non-zero is high. *)
Definition observed_level (v : Z) : LogicLevel :=
  if truth v then High else Low.

(** The classifier as the specification words it (section 4.2). *)
Definition Classifier (assert_on_falling capture_clear_edge : bool)
    (l : LogicLevel) : EventKind :=
  if assert_on_falling then
    match l with
    | Low => Assert
    | High => if capture_clear_edge then Clear else Ignored
    end
  else
    match l with
    | High => Assert
    | Low => if capture_clear_edge then Clear else Ignored
    end.

(** The dispatcher as the specification words it (section 4.3): what
    reaches [pps_event] for an event of each kind. *)
Definition forwarded {hdr : kernel_headers} (src : option addr) (ts : Z)
    (kd : EventKind) : list pps_capture :=
  match kd with
  | Assert => [Capture src ts PPS_CAPTUREASSERT None]
  | Clear => [Capture src ts PPS_CAPTURECLEAR None]
  | Ignored => []
  end.

(** The dispatch attempts recorded in a trace, in order. *)
Fixpoint attempts (t : list call) : list pps_capture :=
  match t with
  | [] => []
  | Call_pps_event c :: t' => c :: attempts t'
  | _ :: t' => attempts t'
  end.

(** An active session: the handler's [data] points to live bookkeeping that
    points to platform data. *)
Definition session (k : kernel) (data : option addr)
    : option (pps_gpio_device_data * pps_gpio_platform_data) :=
  a ← data; d ← kmem k !! a; pd ← pdata d; Some (d, pd).

(** The kernel state apart from the call trace and the consumer's events. *)
Definition bookkeeping (k : kernel) :=
  (gpio_claimed k, kmem k, pps_sources k, irq_actions k, managed k,
   platform_data k, drvdata k).

(** [flags] has every bit of [f]. *)
Definition has_flag (flags f : Z) : Prop := flags .&. f = f.

Fixpoint pairwise {A} (R : A → A → Prop) (l : list A) : Prop :=
  match l with
  | [] => True
  | x :: l' => Forall (R x) l' ∧ pairwise R l'
  end.

Definition pps_mode_flags {hdr : kernel_headers} : list Z :=
  [PPS_CAPTUREASSERT; PPS_CAPTURECLEAR; PPS_OFFSETASSERT; PPS_OFFSETCLEAR;
   PPS_ECHOASSERT; PPS_ECHOCLEAR; PPS_CANWAIT; PPS_TSFMT_TSPEC].

(** What the driver relies on in the headers: the trigger flags are two
    different non-empty bit masks with no bit in common, and so are the PPS
    mode flags. *)
Record headers_ok {hdr : kernel_headers} : Prop := HeadersOk {
  irqf_rising_nonzero : IRQF_TRIGGER_RISING ≠ 0%Z;
  irqf_falling_nonzero : IRQF_TRIGGER_FALLING ≠ 0%Z;
  irqf_disjoint : IRQF_TRIGGER_RISING .&. IRQF_TRIGGER_FALLING = 0%Z;
  pps_nonzero : Forall (λ f, f ≠ 0%Z) pps_mode_flags;
  pps_disjoint : pairwise (λ a b, a .&. b = 0%Z) pps_mode_flags;
}.

(** The values of Linux's [include/linux/interrupt.h] and
    [include/uapi/linux/pps.h], with [CONFIG_OF] set. *)
Definition linux_headers : kernel_headers :=
  KernelHeaders true 1 2 1 2 16 32 64 128 256 4096 32.


(** ** What one edge and one start amount to

    Names for the quantities the statements below speak of. *)

Section Observed.
Context {hdr : kernel_headers} (h : host).

(** What the clock and the line show during the edge served in state [k]:
    the clock is read by the handler's first call, the line by its second. *)
Definition edge_time (k : kernel) : Z := now h (length (trace k)).
Definition edge_level (k : kernel) (pin : Z) : Z :=
  line_level h (S (length (trace k))) pin.
Definition edge_kind (k : kernel) (pd : pps_gpio_platform_data) : EventKind :=
  Classifier (assert_falling_edge pd) (capture_clear pd)
    (observed_level (edge_level k (gpio_pin pd))).

(** The state one edge leaves behind. *)
Definition after_edge (k : kernel) (d : pps_gpio_device_data)
    (pd : pps_gpio_platform_data) : kernel :=
  let evs := forwarded (pps d) (edge_time k) (edge_kind k pd) in
  with_delivered
    (λ l, l ++ (if consumer_up h (S (S (length (trace k)))) then evs else []))
    (with_trace
       (λ t, t ++ Call_pps_get_ts (edge_time k)
                :: Call_gpio_get_value (gpio_pin pd) (edge_level k (gpio_pin pd))
                :: (Call_pps_event <$> evs)) k).

(** The capability mode and the default parameters [probe] computes. *)
Definition probe_mode (pd : pps_gpio_platform_data) : Z :=
  let m := PPS_CAPTUREASSERT .|. PPS_OFFSETASSERT .|. PPS_ECHOASSERT
           .|. PPS_CANWAIT .|. PPS_TSFMT_TSPEC in
  if capture_clear pd
  then m .|. (PPS_CAPTURECLEAR .|. PPS_OFFSETCLEAR .|. PPS_ECHOCLEAR)
  else m.

Definition probe_params (pd : pps_gpio_platform_data) : Z :=
  let p := PPS_CAPTUREASSERT .|. PPS_OFFSETASSERT in
  if capture_clear pd then p .|. (PPS_CAPTURECLEAR .|. PPS_OFFSETCLEAR) else p.

(** The state a successful [probe] leaves. *)
Definition started (k' : kernel) (pd : pps_gpio_platform_data) : Prop :=
  ∃ a src d,
    platform_data k' = Some pd ∧
    drvdata k' = Some a ∧
    kmem k' !! a = Some d ∧
    pdata d = Some pd ∧
    pps d = Some src ∧
    mode (info d) = probe_mode pd ∧
    pps_sources k' !! src = Some (info d, probe_params pd) ∧
    irq_actions k' !! irq d =
      Some (IrqAction (get_irqf_trigger_flags pd) (name (info d)) (Some a)) ∧
    gpio_pin pd ∈ gpio_claimed k'.

End Observed.

(** ** Predicates on driver code *)

(** A computation that touches only the trace and the consumer. *)
Definition frames {A} (m : K A) : Prop :=
  ∀ k, bookkeeping (m k).2 = bookkeeping k.

(** [wp m Q k]: running [m] from [k] ends in a result and a state that
    satisfy [Q]. *)

Definition wp {A} (m : K A) (Q : result A → kernel → Prop) (k : kernel) : Prop :=
  Q (m k).1 (m k).2.

(** ** Concrete inputs *)

(** Platform data as a board file gives it: rising assert edge, clear edge
    captured, line 49. *)
Definition board_pdata : pps_gpio_platform_data :=
  PlatformData false true 49 (Some "pps").

(** A kernel before [probe]: nothing held, platform data from the board. *)
Definition boot_kernel : kernel :=
  Kernel ∅ ∅ ∅ ∅ [] (Some board_pdata) None [] [].

(** A host on which every call succeeds; the line toggles at each call. *)
Definition good_host : host :=
  Host (λ n, 1000 + Z.of_nat n)%Z (λ n _, if Nat.even n then 0 else 1)%Z
    (λ _, true) false 0 false true false (λ _, 0%Z) (λ _, 0%Z)
    (λ pin, pin + 100)%Z true true 0 "pps-gpio" 0 (λ _ s _, s).

(** The same host, except that the line has no interrupt:
    [gpio_to_irq] returns [-ENXIO]. *)
Definition no_irq_host : host :=
  Host (now good_host) (line_level good_host) (consumer_up good_host)
    false 0 false true false (λ _, 0%Z) (λ _, 0%Z)
    (λ _, -6)%Z true true 0 "pps-gpio" 0 (λ _ s _, s).

(** A host whose consumer takes no event. *)
Definition deaf_host : host :=
  Host (now good_host) (line_level good_host) (λ _, false)
    false 0 false true false (λ _, 0%Z) (λ _, 0%Z)
    (λ pin, pin + 100)%Z true true 0 "pps-gpio" 0 (λ _ s _, s).

(** A host that describes the device in the device tree: line 49, with
    the [assert-falling-edge] property. *)
Definition dt_host : host :=
  Host (now good_host) (line_level good_host) (consumer_up good_host)
    true 49 true true false (λ _, 0%Z) (λ _, 0%Z)
    (λ pin, pin + 100)%Z true true 0 "pps-gpio" 0 (λ _ s _, s).

(** An active session on line 49, interrupt 149. *)
Definition session_data : pps_gpio_device_data :=
  DeviceData 149 (Some 1%positive) (SourceInfo "pps-gpio" 4595 true)
    (Some board_pdata).

Definition running_kernel : kernel :=
  Kernel {[49%Z]} {[1%positive := session_data]}
    {[1%positive := (SourceInfo "pps-gpio" 4595 true, 51%Z)]}
    {[149%Z := IrqAction 3 "pps-gpio" (Some 1%positive)]}
    [DR_pinctrl; DR_irq 149] (Some board_pdata) (Some 1%positive) [] [].

(** The session after [remove]. *)
Definition stopped_kernel : kernel :=
  Kernel {[49%Z]} ∅ ∅
    {[149%Z := IrqAction 3 "pps-gpio" (Some 1%positive)]}
    [DR_pinctrl; DR_irq 149] (Some board_pdata) None []
    [Call_pps_unregister_source (Some 1%positive);
     Call_printk "removed IRQ as PPS source";
     Call_kfree (Some 1%positive)].

(** The state [probe] reaches from [boot_kernel] on [good_host]. *)
Definition started_kernel : kernel :=
  Eval vm_compute in
    (pps_gpio_probe (hdr:=linux_headers) good_host boot_kernel).2.

(** What [of_get_pps_gpio_pdata] builds on [dt_host], and the state it
    leaves. *)
Definition dt_pdata : pps_gpio_platform_data :=
  PlatformData true false 49 (Some PPS_GPIO_NAME).

Definition dt_kernel : kernel :=
  Eval vm_compute in
    (of_get_pps_gpio_pdata (hdr:=linux_headers) dt_host boot_kernel).2.

(** ** The outcome of a start, read off the host's answers *)

Section Outcome.
Context {hdr : kernel_headers} (h : host).

(** The platform data the device tree yields, if any. *)
Definition dt_config : option pps_gpio_platform_data :=
  if CONFIG_OF && devm_kzalloc_ok h && negb (dt_gpio h <? 0)%Z
  then Some (PlatformData (dt_assert_falling_edge h) false (dt_gpio h)
               (Some PPS_GPIO_NAME))
  else None.

(** The platform data [probe] works with: the device tree's when the device
    matches the table, else what the device came with. *)
Definition start_config (pl : option pps_gpio_platform_data)
    : option pps_gpio_platform_data :=
  if dt_match h then dt_config else pl.

(** The acquisitions of [probe] in order, each with the error a failure of
    it gives. *)
Definition start_status (pl : option pps_gpio_platform_data) : status :=
  match start_config pl with
  | None => Failure ENODEV
  | Some pd =>
      if truth (gpio_request_ret h (gpio_pin pd)) then Failure EINVAL
      else if truth (gpio_direction_input_ret h (gpio_pin pd)) then Failure EINVAL
      else if (gpio_to_irq_ret h (gpio_pin pd) <? 0)%Z then Failure EINVAL
      else if negb (kzalloc_ok h) then Failure ENOMEM
      else if negb (pps_register_ok h) then Failure EINVAL
      else if truth (request_irq_ret h) then Failure EINVAL
      else Success
  end.

(** The lines claimed after [probe]: the line of the configuration joins
    them when [gpio_request] succeeds and leaves them again only when
    [gpio_direction_input] fails. *)
Definition lines_after (pl : option pps_gpio_platform_data) (lines : gset Z)
    : gset Z :=
  match start_config pl with
  | None => lines
  | Some pd =>
      if truth (gpio_request_ret h (gpio_pin pd)) then lines
      else if truth (gpio_direction_input_ret h (gpio_pin pd))
      then ({[gpio_pin pd]} ∪ lines) ∖ {[gpio_pin pd]}
      else {[gpio_pin pd]} ∪ lines
  end.

(** The bookkeeping block a successful [probe] fills in, for the source at
    [src]. *)
Definition started_data (pd : pps_gpio_platform_data) (src : addr)
    : pps_gpio_device_data :=
  DeviceData (gpio_to_irq_ret h (gpio_pin pd)) (Some src)
    (SourceInfo (snprintf h (PPS_MAX_NAME_LEN - 1) (pdev_name h) (pdev_id h))
       (probe_mode pd) true)
    (Some pd).

End Outcome.

(** [h] with another answer of [devm_pinctrl_get_select_default]. *)
Definition with_pinctrl_err (b : bool) (h : host) : host :=
  Host (now h) (line_level h) (consumer_up h) (dt_match h) (dt_gpio h)
    (dt_assert_falling_edge h) (devm_kzalloc_ok h) b (gpio_request_ret h)
    (gpio_direction_input_ret h) (gpio_to_irq_ret h) (kzalloc_ok h)
    (pps_register_ok h) (request_irq_ret h) (pdev_name h) (pdev_id h)
    (snprintf h).

(** The state [n] edges in a row leave behind. *)
Fixpoint after_edges {hdr : kernel_headers} (h : host) (n : nat) (k : kernel)
    (d : pps_gpio_device_data) (pd : pps_gpio_platform_data) : kernel :=
  match n with
  | O => k
  | S n' => after_edges h n' (after_edge h k d pd) d pd
  end.

(** A host whose device tree names the device but gives it no line. *)
Definition dt_broken_host : host :=
  Host (now good_host) (line_level good_host) (consumer_up good_host)
    true (-2) false true false (λ _, 0%Z) (λ _, 0%Z)
    (λ pin, pin + 100)%Z true true 0 "pps-gpio" 0 (λ _ s _, s).

(** A host on which [kzalloc] fails. *)
Definition no_memory_host : host :=
  Host (now good_host) (line_level good_host) (consumer_up good_host)
    false 0 false true false (λ _, 0%Z) (λ _, 0%Z)
    (λ pin, pin + 100)%Z false true 0 "pps-gpio" 0 (λ _ s _, s).

(** The state the failed [probe] on [no_irq_host] leaves. *)
Definition leaky_kernel : kernel :=
  Eval vm_compute in
    (pps_gpio_probe (hdr:=linux_headers) no_irq_host boot_kernel).2.

(** [started_kernel] after [remove]. *)
Definition restopped_kernel : kernel :=
  Eval vm_compute in (pps_gpio_remove started_kernel).2.

(** The state [probe] reaches from [boot_kernel] on [dt_host]. *)
Definition dt_started_kernel : kernel :=
  Eval vm_compute in
    (pps_gpio_probe (hdr:=linux_headers) dt_host boot_kernel).2.

(** An active session that captures the assert edge only. *)
Definition assert_only_pdata : pps_gpio_platform_data :=
  PlatformData false false 49 (Some "pps").

Definition assert_only_data : pps_gpio_device_data :=
  DeviceData 149 (Some 1%positive) (SourceInfo "pps-gpio" 4433 true)
    (Some assert_only_pdata).

Definition assert_only_kernel : kernel :=
  Kernel {[49%Z]} {[1%positive := assert_only_data]}
    {[1%positive := (SourceInfo "pps-gpio" 4433 true, 17%Z)]}
    {[149%Z := IrqAction 1 "pps-gpio" (Some 1%positive)]}
    [DR_pinctrl; DR_irq 149] (Some assert_only_pdata) (Some 1%positive) [] [].

(** * Proofs *)

(** ** Running the monad *)

Ltac run_K :=
  cbv beta iota zeta delta
    [mbind K_bind mret K_ret oops modify gets load deref store emit step printk
     pps_get_ts gpio_get_value pps_event
     with_trace with_delivered with_kmem with_gpio_claimed with_pps_sources
     with_irq_actions with_managed with_platform_data with_drvdata
     gpio_claimed kmem pps_sources irq_actions managed platform_data drvdata
     delivered trace].

Lemma frames_ret {A} (a : A) : frames (mret a).
Proof. intros k. reflexivity. Qed.

Lemma frames_oops {A} : frames (@oops A).
Proof. intros k. reflexivity. Qed.

Lemma frames_gets {A} (f : kernel → A) : frames (gets f).
Proof. intros k. reflexivity. Qed.

Lemma frames_bind {A B} (m : K A) (f : A → K B) :
  frames m → (∀ a, frames (f a)) → frames (m ≫= f).
Proof.
  intros Hm Hf k. specialize (Hm k).
  unfold mbind, K_bind. destruct (m k) as [[a|] k1]; simpl in *.
  - rewrite Hf. exact Hm.
  - exact Hm.
Qed.

Lemma frames_load {A} (p : option A) : frames (load p).
Proof. destruct p; [apply frames_ret | apply frames_oops]. Qed.

Lemma frames_deref p : frames (deref p).
Proof.
  unfold deref. apply frames_bind; [apply frames_load|]. intros a.
  apply frames_bind; [apply frames_gets|]. intros d. apply frames_load.
Qed.

Lemma frames_emit c : frames (emit c).
Proof. intros [g m s i mg pl dv dl tr]. reflexivity. Qed.

Lemma frames_if {A} (b : bool) (m1 m2 : K A) :
  frames m1 → frames m2 → frames (if b then m1 else m2).
Proof. destruct b; trivial. Qed.

Create HintDb frames.
#[export] Hint Resolve frames_ret frames_oops frames_gets frames_load
  frames_deref frames_emit frames_if : frames.
#[export] Hint Extern 2 (frames (_ ≫= _)) =>
  apply frames_bind; [|intros ?] : frames.

Lemma attempts_app t1 t2 : attempts (t1 ++ t2) = attempts t1 ++ attempts t2.
Proof.
  induction t1 as [|c t1 IH]; simpl; [reflexivity|].
  destruct c; simpl; rewrite ?IH; reflexivity.
Qed.

Lemma attempts_events evs : attempts (Call_pps_event <$> evs) = evs.
Proof. induction evs as [|c evs IH]; simpl; [reflexivity | f_equal; exact IH]. Qed.

Lemma session_inv k data d pd :
  session k data = Some (d, pd) →
  ∃ a, data = Some a ∧ kmem k !! a = Some d ∧ pdata d = Some pd.
Proof.
  unfold session. intros Hs.
  destruct data as [a|]; simpl in Hs; [|done].
  destruct (kmem k !! a) as [d'|] eqn:Hd; simpl in Hs; [|done].
  destruct (pdata d') as [pd'|] eqn:Hp; simpl in Hs; [|done].
  injection Hs as -> ->. eauto.
Qed.

Lemma session_bookkeeping k k' data :
  bookkeeping k' = bookkeeping k → session k' data = session k data.
Proof. unfold bookkeeping, session. intros [= _ -> _ _ _ _ _]. reflexivity. Qed.

(** ** The edge handler *)

Section Handler.
Context {hdr : kernel_headers} (h : host).

Lemma handler_run irq_no data k d pd :
  session k data = Some (d, pd) →
  pps_gpio_irq_handler h irq_no data k = (Done IRQ_HANDLED, after_edge h k d pd).
Proof.
  intros (a & -> & Hd & Hp)%session_inv.
  unfold pps_gpio_irq_handler, after_edge, edge_kind, edge_level, edge_time.
  destruct k as [g m s i mg pl dv dl tr]; simpl in Hd.
  run_K. rewrite Hd, Hp, !last_length.
  unfold observed_level, Classifier.
  destruct (truth _), (assert_falling_edge pd), (capture_clear pd); simpl;
    rewrite ?last_length;
    try destruct (consumer_up h _); simpl;
    rewrite <- ?app_assoc, ?app_nil_r; reflexivity.
Qed.

Lemma frames_pps_get_ts : frames (pps_get_ts h).
Proof. unfold pps_get_ts, step. auto 10 with frames. Qed.

Lemma frames_gpio_get_value pin : frames (gpio_get_value h pin).
Proof. unfold gpio_get_value, step. auto 10 with frames. Qed.

Lemma frames_pps_event p ts ev data : frames (pps_event h p ts ev data).
Proof.
  unfold pps_event, step. apply frames_bind; [auto with frames|]. intros n.
  apply frames_bind; [auto with frames|]. intros _.
  apply frames_if; [|auto with frames].
  intros [g m s i mg pl dv dl tr]. reflexivity.
Qed.

Lemma frames_handler irq_no data : frames (pps_gpio_irq_handler h irq_no data).
Proof.
  unfold pps_gpio_irq_handler.
  pose proof frames_pps_get_ts. pose proof frames_gpio_get_value.
  pose proof frames_pps_event.
  auto 20 with frames.
Qed.

Lemma after_edge_bookkeeping k d pd : bookkeeping (after_edge h k d pd) = bookkeeping k.
Proof. destruct k. reflexivity. Qed.

Lemma after_edge_attempts k d pd :
  attempts (trace (after_edge h k d pd)) =
  attempts (trace k) ++ forwarded (pps d) (edge_time h k) (edge_kind h k pd).
Proof.
  destruct k as [g m s i mg pl dv dl tr]. unfold after_edge. simpl.
  rewrite attempts_app. simpl. f_equal. apply attempts_events.
Qed.

Lemma capture_events_differ :
  headers_ok → PPS_CAPTUREASSERT ≠ PPS_CAPTURECLEAR.
Proof.
  intros [_ _ _ Hnz Hdj] Heq.
  apply Forall_cons_1 in Hnz as [Hca _].
  destruct Hdj as [Hd _]. apply Forall_cons_1 in Hd as [Hd _].
  rewrite <- Heq, Z.land_diag in Hd. contradiction.
Qed.

(** C1.  Whatever the polarity, the clear-capture setting and the level the
    line shows, the handler hands [pps_event] exactly what the table of the
    specification prescribes for that combination: the assert event when the
    level is the primary one, the clear event on the other level when clear
    edges are captured, and nothing otherwise. *)
Theorem classifier_matches_table irq_no data k d pd :
  session k data = Some (d, pd) →
  ∃ k',
    pps_gpio_irq_handler h irq_no data k = (Done IRQ_HANDLED, k') ∧
    attempts (trace k') =
      attempts (trace k) ++
      forwarded (pps d) (edge_time h k)
        (Classifier (assert_falling_edge pd) (capture_clear pd)
           (observed_level (edge_level h k (gpio_pin pd)))).
Proof.
  intros Hs. exists (after_edge h k d pd). split.
  - by apply handler_run.
  - apply after_edge_attempts.
Qed.

(** C2.  One edge makes the handler forward at most one event: the assert
    event whenever the edge is classified [Assert]; the clear event whenever
    it is classified [Clear], and a clear event only in a session with
    [capture_clear] set; and nothing, with the interrupt still reported as
    handled, when the edge is classified [Ignored]. *)
Theorem dispatch_at_most_one irq_no data k d pd :
  headers_ok →
  session k data = Some (d, pd) →
  ∃ k' evs,
    pps_gpio_irq_handler h irq_no data k = (Done IRQ_HANDLED, k') ∧
    attempts (trace k') = attempts (trace k) ++ evs ∧
    (length evs ≤ 1)%nat ∧
    (edge_kind h k pd = Assert →
       evs = [Capture (pps d) (edge_time h k) PPS_CAPTUREASSERT None]) ∧
    (edge_kind h k pd = Clear →
       evs = [Capture (pps d) (edge_time h k) PPS_CAPTURECLEAR None]) ∧
    (∀ c, c ∈ evs → cap_event c = PPS_CAPTURECLEAR → capture_clear pd = true) ∧
    (edge_kind h k pd = Ignored → evs = []).
Proof.
  intros Hok Hs.
  exists (after_edge h k d pd), (forwarded (pps d) (edge_time h k) (edge_kind h k pd)).
  split; [by apply handler_run|]. split; [apply after_edge_attempts|].
  pose proof (capture_events_differ Hok) as Hne.
  unfold edge_kind, Classifier.
  destruct (assert_falling_edge pd), (observed_level _), (capture_clear pd);
    simpl; repeat split; try done; try lia;
    intros c Hc%list_elem_of_In Hev; simpl in Hc;
    repeat match goal with
           | Hf : False |- _ => destruct Hf
           | Ho : _ ∨ _ |- _ => destruct Ho as [<-|Ho]
           end; simpl in Hev; done.
Qed.

(** C3.  In every run of the handler the first call is the clock read,
    made at the time the handler was entered; whatever follows it (the read
    of the line, which sees the line as it is afterwards, and the dispatch)
    comes later, and every event dispatched carries the time stamp of that
    first read. *)
Theorem timestamp_captured_first irq_no data k :
  ∃ rest,
    trace (pps_gpio_irq_handler h irq_no data k).2 =
      trace k ++ Call_pps_get_ts (edge_time h k) :: rest ∧
    Forall (λ c, match c with
                 | Call_pps_get_ts _ => False
                 | Call_gpio_get_value pin v => v = edge_level h k pin
                 | Call_pps_event c => cap_ts c = edge_time h k
                 | _ => True
                 end) rest.
Proof.
  destruct (session k data) as [[d pd]|] eqn:Hs.
  - rewrite (handler_run _ _ _ _ _ Hs).
    eexists. split; [destruct k; reflexivity|].
    constructor; [reflexivity|].
    apply Forall_fmap. unfold edge_kind.
    destruct (Classifier _ _ _); simpl; repeat constructor.
  - exists []. split; [|constructor].
    unfold session in Hs. unfold pps_gpio_irq_handler, edge_time.
    destruct k as [g m s i mg pl dv dl tr]. simpl in Hs.
    destruct data as [a|]; simpl in Hs; [|reflexivity].
    run_K. destruct (m !! a) as [d|]; simpl in Hs; [|reflexivity].
    destruct (pdata d); [done | reflexivity].
Qed.

(** The handler served [n] edges in a row. *)
Lemma handle_edges_run irq_no data d pd n : ∀ k,
  session k data = Some (d, pd) →
  ∃ k',
    handle_edges h n irq_no data k = (Done (replicate n IRQ_HANDLED), k') ∧
    bookkeeping k' = bookkeeping k.
Proof.
  induction n as [|n IH]; intros k Hs.
  - exists k. split; reflexivity.
  - destruct (IH (after_edge h k d pd)) as (k' & Hrun & Hbk).
    { rewrite <- Hs. apply session_bookkeeping, after_edge_bookkeeping. }
    exists k'. split.
    + simpl. unfold mbind, K_bind. rewrite (handler_run _ _ _ _ _ Hs).
      fold (@mbind K _). unfold mbind, K_bind. rewrite Hrun. reflexivity.
    + rewrite Hbk. apply after_edge_bookkeeping.
Qed.

(** C7.  However the consumer behaved on the edges served so far, each of
    them was reported as handled, the session is as it was, and the next
    edge is again reported as handled after an attempt to dispatch what the
    classifier makes of it. *)
Theorem per_event_failures_isolated irq_no data k d pd n :
  session k data = Some (d, pd) →
  ∃ k' k'',
    handle_edges h n irq_no data k = (Done (replicate n IRQ_HANDLED), k') ∧
    session k' data = Some (d, pd) ∧
    irq_actions k' = irq_actions k ∧
    pps_gpio_irq_handler h irq_no data k' = (Done IRQ_HANDLED, k'') ∧
    attempts (trace k'') =
      attempts (trace k') ++ forwarded (pps d) (edge_time h k') (edge_kind h k' pd).
Proof.
  intros Hs.
  destruct (handle_edges_run irq_no data d pd n k Hs) as (k' & Hrun & Hbk).
  assert (session k' data = Some (d, pd)) as Hs'.
  { rewrite <- Hs. by apply session_bookkeeping. }
  exists k', (after_edge h k' d pd). split; [exact Hrun|]. split; [exact Hs'|].
  split; [by injection Hbk|]. split; [by apply handler_run|].
  apply after_edge_attempts.
Qed.

(** C8.  A run of the handler changes nothing but the call trace and the
    events the consumer holds: the bookkeeping block, and with it the
    platform data it points to ([assert_falling_edge], [capture_clear],
    [gpio_pin]), the claimed lines, the registered sources and interrupts,
    the platform data and the driver data are as before. *)
Theorem handler_keeps_configuration irq_no data k :
  bookkeeping (pps_gpio_irq_handler h irq_no data k).2 = bookkeeping k ∧
  session (pps_gpio_irq_handler h irq_no data k).2 data = session k data.
Proof.
  pose proof (frames_handler irq_no data k) as Hf.
  split; [exact Hf | by apply session_bookkeeping].
Qed.

End Handler.

Lemma wp_run {A} (m : K A) Q k : wp m Q k → ∀ r k', m k = (r, k') → Q r k'.
Proof. unfold wp. intros HQ r k' Hrun. rewrite Hrun in HQ. exact HQ. Qed.

Lemma wp_ret {A} (a : A) Q k : Q (Done a) k → wp (mret a) Q k.
Proof. trivial. Qed.

Lemma wp_oops {A} (Q : result A → kernel → Prop) k : Q Oops k → wp oops Q k.
Proof. trivial. Qed.

Lemma wp_modify f Q k : Q (Done ()) (f k) → wp (modify f) Q k.
Proof. trivial. Qed.

Lemma wp_gets {A} (f : kernel → A) Q k : Q (Done (f k)) k → wp (gets f) Q k.
Proof. trivial. Qed.

Lemma wp_bind {A B} (m : K A) (f : A → K B) Q k :
  wp m (λ r k', match r with
                | Done a => wp (f a) Q k'
                | Oops => Q Oops k'
                end) k →
  wp (m ≫= f) Q k.
Proof.
  unfold wp, mbind, K_bind. destruct (m k) as [[a|] k']; trivial.
Qed.

Lemma wp_emit c Q k :
  Q (Done ()) (with_trace (λ t, t ++ [c]) k) → wp (emit c) Q k.
Proof. trivial. Qed.

Lemma wp_deref_some a d Q k :
  kmem k !! a = Some d → Q (Done d) k → wp (deref (Some a)) Q k.
Proof. unfold wp, deref. run_K. intros ->. trivial. Qed.

Lemma wp_store_some a d f Q k :
  kmem k !! a = Some d →
  Q (Done ()) (with_kmem <[a := f d]> k) → wp (store (Some a) f) Q k.
Proof. unfold wp, store. run_K. intros ->. trivial. Qed.

Ltac wp_unfold m :=
  let hd := lazymatch m with
            | ?f _ _ _ _ _ _ => f | ?f _ _ _ _ _ => f | ?f _ _ _ _ => f
            | ?f _ _ _ => f | ?f _ _ => f | ?f _ => f | ?f => f
            end in
  unfold hd.

Ltac wp_reduce :=
  cbn [with_trace with_delivered with_kmem with_gpio_claimed with_pps_sources
       with_irq_actions with_managed with_platform_data with_drvdata
       gpio_claimed kmem pps_sources irq_actions managed platform_data drvdata
       delivered trace
       set_irq set_pps set_pdata set_info_mode set_info_owner set_info_name
       irq pps info pdata name mode owner zero_data zero_info is_failure
       set_gpio_pin set_gpio_label set_assert_falling_edge zero_pdata
       assert_falling_edge capture_clear gpio_pin gpio_label
       now line_level consumer_up dt_match dt_gpio dt_assert_falling_edge
       devm_kzalloc_ok pinctrl_err gpio_request_ret gpio_direction_input_ret
       gpio_to_irq_ret kzalloc_ok pps_register_ok request_irq_ret pdev_name
       pdev_id snprintf].

Ltac wp_step :=
  lazymatch goal with
  | |- wp (_ ≫= _) _ _ => apply wp_bind
  | |- wp (mret _) _ _ => apply wp_ret; wp_reduce
  | |- wp (modify _) _ _ => apply wp_modify; wp_reduce
  | |- wp (gets _) _ _ => apply wp_gets; wp_reduce
  | |- wp oops _ _ => apply wp_oops; wp_reduce
  | |- wp (emit _) _ _ => apply wp_emit; wp_reduce
  | |- wp (deref (Some _)) _ _ =>
      eapply wp_deref_some; [wp_reduce; apply lookup_insert_eq | wp_reduce]
  | |- wp (store (Some _) _) _ _ =>
      eapply wp_store_some; [wp_reduce; apply lookup_insert_eq | wp_reduce]
  | |- wp (load (<[_:=_]> _ !! _)) _ _ => rewrite lookup_insert_eq
  | |- wp (load (Some _)) _ _ => apply wp_ret; wp_reduce
  | |- wp (load None) _ _ => apply wp_oops; wp_reduce
  | |- wp (if ?b then _ else _) _ _ => destruct b eqn:?
  | |- wp (match ?x with _ => _ end) _ _ => destruct x eqn:?
  | |- wp ?m _ _ => wp_unfold m; wp_reduce
  end.


(** ** Bit masks *)

Lemma truth_nonzero v : v ≠ 0%Z → truth v = true.
Proof. unfold truth. intros Hv. by apply negb_true_iff, Z.eqb_neq. Qed.

Lemma has_flag_self f : has_flag f f.
Proof. apply Z.land_diag. Qed.

Lemma has_flag_lor_l m g f : has_flag m f → has_flag (m .|. g) f.
Proof.
  unfold has_flag. intros Hm. apply Z.bits_inj'. intros n _.
  apply (f_equal (λ x, Z.testbit x n)) in Hm. revert Hm.
  rewrite !Z.land_spec, Z.lor_spec.
  destruct (Z.testbit m n), (Z.testbit g n), (Z.testbit f n); trivial.
Qed.

Lemma has_flag_lor_r m g f : has_flag g f → has_flag (m .|. g) f.
Proof. rewrite Z.lor_comm. apply has_flag_lor_l. Qed.

Lemma lacks_flag m f : f ≠ 0%Z → m .&. f = 0%Z → ¬ has_flag m f.
Proof. unfold has_flag. congruence. Qed.

Lemma pairwise_lookup {A} (R : A → A → Prop) `{!Symmetric R} l i j a b :
  pairwise R l → i ≠ j → l !! i = Some a → l !! j = Some b → R a b.
Proof.
  revert i j. induction l as [|x l IH]; intros i j Hp Hij Hi Hj.
  - done.
  - destruct Hp as [Hx Hl].
    destruct i as [|i], j as [|j]; simpl in *; simplify_eq.
    + eapply Forall_forall; [exact Hx|]. eapply list_elem_of_lookup_2, Hj.
    + symmetry. eapply Forall_forall; [exact Hx|].
      eapply list_elem_of_lookup_2, Hi.
    + eapply (IH i j); eauto.
Qed.

Create HintDb flags.
#[export] Hint Resolve has_flag_self has_flag_lor_l has_flag_lor_r : flags.

Section Flags.
Context {hdr : kernel_headers} (Hok : headers_ok).

#[local] Instance disjoint_sym : Symmetric (λ a b : Z, a .&. b = 0%Z).
Proof. intros a b. by rewrite Z.land_comm. Qed.

(** Two PPS mode flags at different places of the list share no bit. *)
Lemma pps_flags_apart i j a b :
  i ≠ j → pps_mode_flags !! i = Some a → pps_mode_flags !! j = Some b →
  a .&. b = 0%Z.
Proof.
  intros. eapply (pairwise_lookup (λ a b : Z, a .&. b = 0%Z)); eauto.
  apply Hok.
Qed.

Lemma pps_flag_nonzero i a : pps_mode_flags !! i = Some a → a ≠ 0%Z.
Proof.
  intros Hi. eapply (Forall_lookup_1 (λ f, f ≠ 0%Z)); [apply Hok | exact Hi].
Qed.

End Flags.

(** ** Session start and stop *)

Section Probe.
Context {hdr : kernel_headers} (h : host).

Lemma wp_of_get_pps_gpio_pdata k :
  wp (of_get_pps_gpio_pdata h)
    (λ r _, ∀ pd, r = Done (Some pd) → capture_clear pd = false) k.
Proof.
  destruct h as [nw lv cu dm dg da dk pe rq di ti kz pr ri pn pi sn].
  destruct da; repeat wp_step; intros pd [= <-]; reflexivity.
Qed.

Lemma probe_success k k' :
  pps_gpio_probe h k = (Done Success, k') →
  ∃ pd, started k' pd ∧ (dt_match h = true → capture_clear pd = false).
Proof.
  revert k'.
  cut (wp (pps_gpio_probe h)
         (λ r k', r = Done Success →
            ∃ pd, started k' pd ∧ (dt_match h = true → capture_clear pd = false)) k).
  { intros Hwp k' Hrun. by apply (wp_run _ _ _ Hwp _ _ Hrun). }
  destruct h as [nw lv cu dm dg da dk pe rq di ti kz pr ri pn pi sn].
  destruct da.
  all: repeat wp_step; try discriminate.
  all: intros _; eexists; split;
    [ unfold started, probe_mode, probe_params; do 3 eexists;
      repeat split;
      (wp_reduce;
       try match goal with Hc : capture_clear _ = _ |- _ => rewrite Hc end;
       first [reflexivity | apply lookup_insert_eq | set_solver])
    | wp_reduce; intros; first [reflexivity | discriminate] ].
Qed.

Lemma fresh_lookup {A} (m : gmap positive A) : m !! fresh (dom m) = None.
Proof. apply not_elem_of_dom, is_fresh. Qed.

Lemma delete_fresh_insert {A} (m : gmap positive A) x :
  delete (fresh (dom m)) (<[fresh (dom m) := x]> m) = m.
Proof. rewrite delete_insert_eq. apply delete_id, fresh_lookup. Qed.

(** What a failed [probe] leaves: the bookkeeping block, the PPS source and
    the interrupt are released or were never acquired, but once
    [pps_gpio_setup] has claimed the line no later failure path frees it. *)
Lemma probe_failure k k' e :
  pps_gpio_probe h k = (Done (Failure e), k') →
  kmem k' = kmem k ∧ pps_sources k' = pps_sources k ∧
  irq_actions k' = irq_actions k ∧ drvdata k' = drvdata k ∧
  ∀ pd, platform_data k' = Some pd →
    truth (gpio_request_ret h (gpio_pin pd)) = false →
    truth (gpio_direction_input_ret h (gpio_pin pd)) = false →
    gpio_pin pd ∈ gpio_claimed k'.
Proof.
  revert k' e.
  cut (wp (pps_gpio_probe h)
         (λ r k', ∀ e, r = Done (Failure e) →
            kmem k' = kmem k ∧ pps_sources k' = pps_sources k ∧
            irq_actions k' = irq_actions k ∧ drvdata k' = drvdata k ∧
            ∀ pd, platform_data k' = Some pd →
              truth (gpio_request_ret h (gpio_pin pd)) = false →
              truth (gpio_direction_input_ret h (gpio_pin pd)) = false →
              gpio_pin pd ∈ gpio_claimed k') k).
  { intros Hwp k' e Hrun. by apply (wp_run _ _ _ Hwp _ _ Hrun e). }
  destruct h as [nw lv cu dm dg da dk pe rq di ti kz pr ri pn pi sn].
  destruct da.
  all: repeat wp_step; intros e He; try discriminate.
  all: rewrite ?insert_insert_eq, ?delete_fresh_insert.
  all: repeat split; try reflexivity.
  all: wp_reduce; intros pd' Hpd Hrq Hdi; simplify_eq; simpl in *;
    first [congruence | set_solver].
Qed.
End Probe.

(** ** Concrete runs *)

Lemma linux_headers_ok : @headers_ok linux_headers.
Proof.
  split; try (intros [=]); try reflexivity.
  - repeat constructor; intros [=].
  - cbn. repeat split; repeat constructor.
Defined.

Example probe_reaches_running_kernel :
  let r := pps_gpio_probe (hdr:=linux_headers) good_host boot_kernel in
  r.1 = Done Success ∧ bookkeeping r.2 = bookkeeping running_kernel.
Proof. vm_compute. split; reflexivity. Qed.


Section Start.
Context {hdr : kernel_headers} (h : host).

(** C4.  The trigger flags requested at session start always contain the
    primary edge (falling when [assert_falling_edge] is set, rising
    otherwise); they contain the complementary edge exactly when
    [capture_clear] is set, and without it they are the primary edge
    alone. *)
Theorem trigger_flags_follow_polarity pd :
  headers_ok →
  let primary :=
    if assert_falling_edge pd then IRQF_TRIGGER_FALLING else IRQF_TRIGGER_RISING in
  let complementary :=
    if assert_falling_edge pd then IRQF_TRIGGER_RISING else IRQF_TRIGGER_FALLING in
  has_flag (get_irqf_trigger_flags pd) primary ∧
  (has_flag (get_irqf_trigger_flags pd) complementary ↔ capture_clear pd = true) ∧
  (capture_clear pd = false → get_irqf_trigger_flags pd = primary).
Proof.
  intros [Hr Hf Hrf _ _]. unfold get_irqf_trigger_flags.
  assert (IRQF_TRIGGER_FALLING .&. IRQF_TRIGGER_RISING = 0%Z) as Hfr
    by (by rewrite Z.land_comm).
  destruct (assert_falling_edge pd), (capture_clear pd); cbv zeta;
    rewrite ?Hfr, ?Z.land_diag, ?(truth_nonzero _ Hr); cbn [truth Z.eqb negb];
    repeat split; intros; try done; auto with flags;
    (exfalso; eapply lacks_flag; [| |eassumption]; assumption).
Qed.

Ltac flag_index l x :=
  lazymatch l with
  | x :: _ => constr:(O)
  | _ :: ?l' => let n := flag_index l' x in constr:(S n)
  end.

(** Solves [a .&. b = 0] for two different PPS mode flags. *)
Ltac apart Hok :=
  lazymatch goal with
  | |- ?a .&. ?b = 0%Z =>
      let l := eval unfold pps_mode_flags in pps_mode_flags in
      let i := flag_index l a in
      let j := flag_index l b in
      apply (pps_flags_apart Hok i j a b); [discriminate | reflexivity..]
  end.

Ltac nonzero Hok :=
  lazymatch goal with
  | |- ?a ≠ 0%Z =>
      let l := eval unfold pps_mode_flags in pps_mode_flags in
      let i := flag_index l a in
      apply (pps_flag_nonzero Hok i a); reflexivity
  end.

Lemma probe_mode_flags pd :
  headers_ok →
  Forall (has_flag (probe_mode pd))
    [PPS_CAPTUREASSERT; PPS_OFFSETASSERT; PPS_ECHOASSERT; PPS_CANWAIT;
     PPS_TSFMT_TSPEC] ∧
  Forall (λ f, has_flag (probe_mode pd) f ↔ capture_clear pd = true)
    [PPS_CAPTURECLEAR; PPS_OFFSETCLEAR; PPS_ECHOCLEAR].
Proof.
  intros Hok. unfold probe_mode.
  destruct (capture_clear pd); cbv zeta; split; repeat constructor;
    intros; try done; auto 10 with flags;
    (exfalso; eapply lacks_flag; [| |eassumption];
     [nonzero Hok | rewrite !Z.land_lor_distr_l;
                    repeat (apply Z.lor_eq_0_iff; split); apart Hok]).
Qed.

Lemma probe_params_flags pd :
  headers_ok →
  Forall (has_flag (probe_params pd)) [PPS_CAPTUREASSERT; PPS_OFFSETASSERT] ∧
  Forall (λ f, has_flag (probe_params pd) f ↔ capture_clear pd = true)
    [PPS_CAPTURECLEAR; PPS_OFFSETCLEAR].
Proof.
  intros Hok. unfold probe_params.
  destruct (capture_clear pd); cbv zeta; split; repeat constructor;
    intros; try done; auto 10 with flags;
    (exfalso; eapply lacks_flag; [| |eassumption];
     [nonzero Hok | rewrite !Z.land_lor_distr_l;
                    repeat (apply Z.lor_eq_0_iff; split); apart Hok]).
Qed.

(** C10.  After every successful [probe] the registered source has a
    capability mode with the assert-capture, assert-offset, assert-echo,
    can-wait and timespec-format flags, and with each of the clear-capture,
    clear-offset and clear-echo flags exactly when [capture_clear] is set;
    its default parameters have the clear-capture and the clear-offset flag
    exactly when [capture_clear] is set. *)
Theorem registered_mode_flags k k' :
  headers_ok →
  pps_gpio_probe h k = (Done Success, k') →
  ∃ pd a d src i params,
    platform_data k' = Some pd ∧
    drvdata k' = Some a ∧ kmem k' !! a = Some d ∧ pps d = Some src ∧
    pps_sources k' !! src = Some (i, params) ∧
    Forall (has_flag (mode i))
      [PPS_CAPTUREASSERT; PPS_OFFSETASSERT; PPS_ECHOASSERT; PPS_CANWAIT;
       PPS_TSFMT_TSPEC] ∧
    Forall (λ f, has_flag (mode i) f ↔ capture_clear pd = true)
      [PPS_CAPTURECLEAR; PPS_OFFSETCLEAR; PPS_ECHOCLEAR] ∧
    Forall (λ f, has_flag params f ↔ capture_clear pd = true)
      [PPS_CAPTURECLEAR; PPS_OFFSETCLEAR].
Proof.
  intros Hok Hrun.
  destruct (probe_success h k k' Hrun) as (pd & Hst & _).
  destruct Hst as (a & src & d & Hpl & Hdv & Hd & _ & Hsrc & Hmode & Hreg & _).
  exists pd, a, d, src, (info d), (probe_params pd).
  rewrite Hmode.
  destruct (probe_mode_flags pd Hok) as [Hbase Hclear].
  destruct (probe_params_flags pd Hok) as [_ Hparams].
  by repeat split.
Qed.

(** C9.  Platform data built from the device tree never has
    [capture_clear] set: the block comes zeroed from [devm_kzalloc] and only
    the line, the label and [assert_falling_edge] are written. *)
Theorem device_tree_never_captures_clear k k' pd :
  of_get_pps_gpio_pdata h k = (Done (Some pd), k') →
  capture_clear pd = false.
Proof.
  intros Hrun.
  exact (wp_run _ _ _ (wp_of_get_pps_gpio_pdata h k) _ _ Hrun pd eq_refl).
Qed.

End Start.

(** C5.  A start that fails after the line was claimed returns an error
    but keeps the line: with platform data for line 49 and a line that has
    no interrupt, [probe] returns [-EINVAL] and line 49, free before, stays
    claimed.  [pps_gpio_setup] frees the line when it fails itself; the
    failure paths of [probe] after it do not. *)
Theorem failed_start_keeps_gpio_line :
  let r := pps_gpio_probe (hdr:=linux_headers) no_irq_host boot_kernel in
  r.1 = Done (Failure EINVAL) ∧
  gpio_claimed boot_kernel = ∅ ∧
  gpio_claimed r.2 = {[49%Z]} ∧
  attempts (trace r.2) = [] ∧
  Call_gpio_free 49 ∉ trace r.2.
Proof.
  vm_compute. repeat split; try reflexivity.
  intros Hin. repeat (apply elem_of_cons in Hin as [[=]|Hin]).
  by apply elem_of_nil in Hin.
Qed.

(** [remove] on the session a successful [probe] left. *)
Lemma remove_run k a d src x :
  drvdata k = Some a →
  kmem k !! a = Some d →
  pps d = Some src →
  pps_sources k !! src = Some x →
  pps_gpio_remove k =
    (Done Success,
     with_kmem (delete a)
       (with_trace (λ t, t ++ [Call_pps_unregister_source (Some src);
                               Call_printk "removed IRQ as PPS source";
                               Call_kfree (Some a)])
          (with_pps_sources (delete src) (with_drvdata None k)))).
Proof.
  destruct k as [g m s i mg pl dv dl tr]. simpl. intros -> Hd Hsrc Hx.
  unfold pps_gpio_remove, pps_unregister_source, kfree, platform_get_drvdata,
    platform_set_drvdata.
  run_K. do 4 (rewrite ?Hd, ?Hsrc, ?Hx; cbv beta iota).
  rewrite <- !app_assoc. reflexivity.
Qed.

(** [remove] without a session: the driver data is NULL and is
    dereferenced. *)
Lemma remove_stopped k : drvdata k = None → pps_gpio_remove k = (Oops, k).
Proof. destruct k as [g m s i mg pl dv dl tr]. simpl. intros ->. reflexivity. Qed.

(** A session that [probe] started can be stopped; the line stays claimed:
    [remove] has no [gpio_free] either. *)
Lemma start_then_stop {hdr : kernel_headers} (h : host) k k' :
  pps_gpio_probe h k = (Done Success, k') →
  ∃ k'', pps_gpio_remove k' = (Done Success, k'') ∧
         drvdata k'' = None ∧ gpio_claimed k'' = gpio_claimed k'.
Proof.
  intros (pd & (a & src & d & _ & Hdv & Hd & _ & Hsrc & _ & Hreg & _) & _)%probe_success.
  eexists. split; [by eapply remove_run|].
  destruct k' as [g m s i mg pl dv dl tr]. split; reflexivity.
Qed.

(** C6 (as amended).  Stopping an active session produces no error and
    releases the PPS source and the bookkeeping block once each, leaving the
    device without driver data; the session must not be stopped again: a
    second [remove] dereferences the cleared driver data and faults, before
    it releases anything. *)
Theorem stop_releases_once k a d src x :
  drvdata k = Some a →
  kmem k !! a = Some d →
  pps d = Some src →
  pps_sources k !! src = Some x →
  ∃ k1,
    pps_gpio_remove k = (Done Success, k1) ∧
    drvdata k1 = None ∧
    kmem k1 = delete a (kmem k) ∧
    pps_sources k1 = delete src (pps_sources k) ∧
    trace k1 = trace k ++ [Call_pps_unregister_source (Some src);
                           Call_printk "removed IRQ as PPS source";
                           Call_kfree (Some a)] ∧
    pps_gpio_remove k1 = (Oops, k1).
Proof.
  intros Hdv Hd Hsrc Hx. eexists. split; [by eapply remove_run|].
  destruct k as [g m s i mg pl dv dl tr]. repeat split.
Qed.

(** C6, the counterexample: stopping the running session succeeds, and
    stopping it a second time is a NULL dereference. *)
Lemma stop_twice_faults :
  pps_gpio_remove running_kernel = (Done Success, stopped_kernel) ∧
  pps_gpio_remove stopped_kernel = (Oops, stopped_kernel).
Proof. split; vm_compute; reflexivity. Qed.

(** Four edges served while the consumer takes nothing: each is reported as
    handled and each dispatch is attempted (assert, clear, assert, clear),
    though no event arrives. *)
Example deaf_consumer_still_attempted :
  let r := handle_edges (hdr:=linux_headers) deaf_host 4 149 (Some 1%positive)
             running_kernel in
  r.1 = Done [IRQ_HANDLED; IRQ_HANDLED; IRQ_HANDLED; IRQ_HANDLED] ∧
  cap_event <$> attempts (trace r.2) = [1; 2; 1; 2]%Z ∧
  delivered r.2 = [].
Proof. vm_compute. repeat split. Qed.

(** ** The statements at concrete inputs *)

Lemma classifier_matches_table_witness :
  session running_kernel (Some 1%positive) = Some (session_data, board_pdata) ∧
  ∃ k',
    pps_gpio_irq_handler (hdr:=linux_headers) good_host 149 (Some 1%positive)
      running_kernel = (Done IRQ_HANDLED, k') ∧
    attempts (trace k') = [Capture (Some 1%positive) 1000 1 None].
Proof.
  split; [reflexivity|].
  apply (classifier_matches_table (hdr:=linux_headers) good_host 149
           (Some 1%positive) running_kernel session_data board_pdata).
  reflexivity.
Defined.

Lemma dispatch_at_most_one_witness :
  @headers_ok linux_headers ∧
  session running_kernel (Some 1%positive) = Some (session_data, board_pdata) ∧
  ∃ k' evs,
    pps_gpio_irq_handler (hdr:=linux_headers) good_host 149 (Some 1%positive)
      running_kernel = (Done IRQ_HANDLED, k') ∧
    attempts (trace k') = attempts (trace running_kernel) ++ evs ∧
    (length evs ≤ 1)%nat ∧
    (edge_kind good_host running_kernel board_pdata = Assert →
       evs = [Capture (Some 1%positive) 1000 1 None]) ∧
    (edge_kind good_host running_kernel board_pdata = Clear →
       evs = [Capture (Some 1%positive) 1000 2 None]) ∧
    (∀ c, c ∈ evs → cap_event c = 2%Z → capture_clear board_pdata = true) ∧
    (edge_kind good_host running_kernel board_pdata = Ignored → evs = []).
Proof.
  split; [exact linux_headers_ok|]. split; [reflexivity|].
  apply (dispatch_at_most_one (hdr:=linux_headers) good_host 149
           (Some 1%positive) running_kernel session_data board_pdata).
  - exact linux_headers_ok.
  - reflexivity.
Defined.

Lemma per_event_failures_isolated_witness :
  session running_kernel (Some 1%positive) = Some (session_data, board_pdata) ∧
  ∃ k' k'',
    handle_edges (hdr:=linux_headers) deaf_host 3 149 (Some 1%positive)
      running_kernel = (Done [IRQ_HANDLED; IRQ_HANDLED; IRQ_HANDLED], k') ∧
    session k' (Some 1%positive) = Some (session_data, board_pdata) ∧
    irq_actions k' = irq_actions running_kernel ∧
    pps_gpio_irq_handler (hdr:=linux_headers) deaf_host 149 (Some 1%positive) k'
      = (Done IRQ_HANDLED, k'') ∧
    attempts (trace k'') =
      attempts (trace k') ++
      forwarded (hdr:=linux_headers) (Some 1%positive) (edge_time deaf_host k')
        (edge_kind deaf_host k' board_pdata).
Proof.
  split; [reflexivity|].
  apply (per_event_failures_isolated (hdr:=linux_headers) deaf_host 149
           (Some 1%positive) running_kernel session_data board_pdata 3).
  reflexivity.
Defined.

Lemma trigger_flags_follow_polarity_witness :
  @headers_ok linux_headers ∧
  has_flag (get_irqf_trigger_flags (hdr:=linux_headers) board_pdata) 1 ∧
  (has_flag (get_irqf_trigger_flags (hdr:=linux_headers) board_pdata) 2 ↔
   capture_clear board_pdata = true) ∧
  (capture_clear board_pdata = false →
   get_irqf_trigger_flags (hdr:=linux_headers) board_pdata = 1%Z).
Proof.
  split; [exact linux_headers_ok|].
  apply (trigger_flags_follow_polarity (hdr:=linux_headers) board_pdata).
  exact linux_headers_ok.
Defined.

Lemma stop_releases_once_witness :
  drvdata running_kernel = Some 1%positive ∧
  kmem running_kernel !! 1%positive = Some session_data ∧
  pps session_data = Some 1%positive ∧
  pps_sources running_kernel !! 1%positive =
    Some (SourceInfo "pps-gpio" 4595 true, 51%Z) ∧
  ∃ k1,
    pps_gpio_remove running_kernel = (Done Success, k1) ∧
    drvdata k1 = None ∧
    kmem k1 = delete 1%positive (kmem running_kernel) ∧
    pps_sources k1 = delete 1%positive (pps_sources running_kernel) ∧
    trace k1 = trace running_kernel ++
               [Call_pps_unregister_source (Some 1%positive);
                Call_printk "removed IRQ as PPS source";
                Call_kfree (Some 1%positive)] ∧
    pps_gpio_remove k1 = (Oops, k1).
Proof.
  repeat (split; [reflexivity|]).
  apply (stop_releases_once running_kernel 1%positive session_data 1%positive
           (SourceInfo "pps-gpio" 4595 true, 51%Z)); reflexivity.
Defined.

Lemma device_tree_never_captures_clear_witness :
  of_get_pps_gpio_pdata (hdr:=linux_headers) dt_host boot_kernel =
    (Done (Some dt_pdata), dt_kernel) ∧
  capture_clear dt_pdata = false.
Proof.
  split; [vm_compute; reflexivity|].
  apply (device_tree_never_captures_clear (hdr:=linux_headers) dt_host
           boot_kernel dt_kernel dt_pdata).
  vm_compute; reflexivity.
Defined.

Lemma registered_mode_flags_witness :
  @headers_ok linux_headers ∧
  pps_gpio_probe (hdr:=linux_headers) good_host boot_kernel =
    (Done Success, started_kernel) ∧
  ∃ pd a d src i params,
    platform_data started_kernel = Some pd ∧
    drvdata started_kernel = Some a ∧
    kmem started_kernel !! a = Some d ∧
    pps d = Some src ∧
    pps_sources started_kernel !! src = Some (i, params) ∧
    Forall (has_flag (mode i)) [1; 16; 64; 256; 4096]%Z ∧
    Forall (λ f, has_flag (mode i) f ↔ capture_clear pd = true) [2; 32; 128]%Z ∧
    Forall (λ f, has_flag params f ↔ capture_clear pd = true) [2; 32]%Z.
Proof.
  split; [exact linux_headers_ok|]. split; [vm_compute; reflexivity|].
  apply (registered_mode_flags (hdr:=linux_headers) good_host boot_kernel
           started_kernel).
  - exact linux_headers_ok.
  - vm_compute; reflexivity.
Defined.

(** * Further properties of the driver *)

Section Outcomes.
Context {hdr : kernel_headers} (h : host).

(** [probe] ends without a fault, with the status of the first acquisition
    that fails, and leaves [start_config] as the device's platform data. *)
Lemma probe_outcome k :
  (pps_gpio_probe h k).1 = Done (start_status h (platform_data k)) ∧
  platform_data (pps_gpio_probe h k).2 = start_config h (platform_data k).
Proof.
  change (wp (pps_gpio_probe h)
            (λ r k', r = Done (start_status h (platform_data k)) ∧
                     platform_data k' = start_config h (platform_data k)) k).
  unfold start_status, start_config, dt_config.
  destruct h as [nw lv cu dm dg da dk pe rq di ti kz pr ri pn pi sn].
  wp_reduce.
  destruct da.
  all: repeat wp_step.
  all: try congruence.
  all: simplify_eq; simpl;
    repeat match goal with
           | Hq : truth _ = _ |- _ => rewrite Hq
           | Hq : (_ <? _)%Z = _ |- _ => rewrite Hq
           end;
    simpl; split; first [reflexivity | congruence].
Qed.

(** The resources after [probe]: the claimed lines in every case, and after
    a success the new block, source and interrupt. *)
Lemma probe_state k :
  let k' := (pps_gpio_probe h k).2 in
  gpio_claimed k' = lines_after h (platform_data k) (gpio_claimed k) ∧
  delivered k' = delivered k ∧
  ((pps_gpio_probe h k).1 = Done Success →
   ∃ pd, start_config h (platform_data k) = Some pd ∧
     let a := fresh (dom (kmem k)) in
     let src := fresh (dom (pps_sources k)) in
     let d := started_data h pd src in
     kmem k' = <[a := d]> (kmem k) ∧
     pps_sources k' = <[src := (info d, probe_params pd)]> (pps_sources k) ∧
     irq_actions k' =
       <[irq d := IrqAction (get_irqf_trigger_flags pd) (name (info d)) (Some a)]>
         (irq_actions k) ∧
     drvdata k' = Some a).
Proof.
  change (wp (pps_gpio_probe h)
    (λ r k',
       gpio_claimed k' = lines_after h (platform_data k) (gpio_claimed k) ∧
       delivered k' = delivered k ∧
       (r = Done Success →
        ∃ pd, start_config h (platform_data k) = Some pd ∧
          let a := fresh (dom (kmem k)) in
          let src := fresh (dom (pps_sources k)) in
          let d := started_data h pd src in
          kmem k' = <[a := d]> (kmem k) ∧
          pps_sources k' = <[src := (info d, probe_params pd)]> (pps_sources k) ∧
          irq_actions k' =
            <[irq d := IrqAction (get_irqf_trigger_flags pd) (name (info d))
                         (Some a)]> (irq_actions k) ∧
          drvdata k' = Some a)) k).
  unfold lines_after, start_config, dt_config, started_data, probe_mode,
    probe_params.
  destruct h as [nw lv cu dm dg da dk pe rq di ti kz pr ri pn pi sn].
  wp_reduce.
  destruct da.
  all: repeat wp_step.
  all: try congruence.
  all: simplify_eq; simpl;
    repeat match goal with
           | Hq : truth _ = _ |- _ => rewrite Hq
           | Hq : (_ <? _)%Z = _ |- _ => rewrite Hq
           | Hq : capture_clear _ = _ |- _ => rewrite Hq
           | Hq : platform_data _ = _ |- _ => rewrite Hq
           end;
    simpl; rewrite ?insert_insert_eq.
  all: (split; [reflexivity|]); (split; [reflexivity|]); intros [=].
  all: eexists; split; [reflexivity|]; simpl;
    repeat match goal with Hq : capture_clear _ = _ |- _ => rewrite Hq end.
  all: repeat split; reflexivity.
Qed.

End Outcomes.

Section StartOutcome.
Context {hdr : kernel_headers} (h : host).

Lemma truth_false v : truth v = false ↔ v = 0%Z.
Proof. unfold truth. rewrite negb_false_iff. apply Z.eqb_eq. Qed.

(** X1.  [probe] never dereferences a NULL pointer: from every state and
    with every answer of the kernel it returns a status. *)
Theorem probe_never_faults k : ∃ st, (pps_gpio_probe h k).1 = Done st.
Proof. eexists. apply probe_outcome. Qed.

(** X2.  [probe] returns [-ENODEV] exactly when it has no platform data to
    work with: the device matches the device-tree table and the tree gives
    none, or it does not match and came without any. *)
Theorem no_configuration_no_device k :
  (pps_gpio_probe h k).1 = Done (Failure ENODEV) ↔
  start_config h (platform_data k) = None.
Proof.
  destruct (probe_outcome h k) as [-> _]. unfold start_status.
  destruct (start_config h (platform_data k)) as [pd|]; [|done].
  split; [|done].
  repeat case_match; done.
Qed.

(** X3.  A device that matches the device-tree table gets its platform data
    from the tree, whatever it came with: afterwards the device's platform
    data are the tree's, and when the tree gives none they are NULL and
    [probe] returns [-ENODEV]. *)
Theorem device_tree_overrides_platform_data k :
  dt_match h = true →
  platform_data (pps_gpio_probe h k).2 = dt_config h ∧
  (dt_config h = None → (pps_gpio_probe h k).1 = Done (Failure ENODEV)).
Proof.
  intros Hm. destruct (probe_outcome h k) as [-> ->].
  unfold start_status, start_config. rewrite Hm. split; [done|].
  by intros ->.
Qed.

(** X4.  A failure of the pin-control setup is only logged: the status of
    [probe] is the same with and without it. *)
Theorem pinctrl_failure_is_not_fatal b k :
  (pps_gpio_probe (with_pinctrl_err b h) k).1 = (pps_gpio_probe h k).1.
Proof.
  destruct (probe_outcome h k) as [-> _].
  destruct (probe_outcome (with_pinctrl_err b h) k) as [-> _].
  reflexivity.
Qed.

(** X5.  [probe] succeeds exactly when it has platform data and each of its
    six acquisitions succeeds: the line is granted and made an input, it
    maps to an interrupt, the block is allocated, the source is registered
    and the interrupt is granted. *)
Theorem start_succeeds_iff k :
  (pps_gpio_probe h k).1 = Done Success ↔
  ∃ pd, start_config h (platform_data k) = Some pd ∧
    gpio_request_ret h (gpio_pin pd) = 0%Z ∧
    gpio_direction_input_ret h (gpio_pin pd) = 0%Z ∧
    (0 ≤ gpio_to_irq_ret h (gpio_pin pd))%Z ∧
    kzalloc_ok h = true ∧
    pps_register_ok h = true ∧
    request_irq_ret h = 0%Z.
Proof.
  destruct (probe_outcome h k) as [-> _]. unfold start_status.
  destruct (start_config h (platform_data k)) as [pd|].
  - split.
    + intros Hs. exists pd.
      destruct (truth (gpio_request_ret h _)) eqn:Hrq; [done|].
      destruct (truth (gpio_direction_input_ret h _)) eqn:Hdi; [done|].
      destruct (gpio_to_irq_ret h _ <? 0)%Z eqn:Hti; [done|].
      destruct (kzalloc_ok h); [|done].
      destruct (pps_register_ok h); [|done].
      destruct (truth (request_irq_ret h)) eqn:Hri; [done|].
      apply truth_false in Hrq, Hdi, Hri. apply Z.ltb_ge in Hti. done.
    + intros (? & [= <-] & Hrq & Hdi & Hti & -> & -> & Hri).
      apply truth_false in Hrq, Hdi, Hri. apply Z.ltb_ge in Hti.
      by rewrite Hrq, Hdi, Hti, Hri.
  - split; [done | by intros (? & ? & _)].
Qed.

(** X6.  [probe] returns [-ENOMEM] exactly when the line was set up and
    mapped to an interrupt and [kzalloc] then returned NULL. *)
Theorem out_of_memory_iff k :
  (pps_gpio_probe h k).1 = Done (Failure ENOMEM) ↔
  ∃ pd, start_config h (platform_data k) = Some pd ∧
    gpio_request_ret h (gpio_pin pd) = 0%Z ∧
    gpio_direction_input_ret h (gpio_pin pd) = 0%Z ∧
    (0 ≤ gpio_to_irq_ret h (gpio_pin pd))%Z ∧
    kzalloc_ok h = false.
Proof.
  destruct (probe_outcome h k) as [-> _]. unfold start_status.
  destruct (start_config h (platform_data k)) as [pd|].
  - split.
    + intros Hs. exists pd.
      destruct (truth (gpio_request_ret h _)) eqn:Hrq; [done|].
      destruct (truth (gpio_direction_input_ret h _)) eqn:Hdi; [done|].
      destruct (gpio_to_irq_ret h _ <? 0)%Z eqn:Hti; [done|].
      destruct (kzalloc_ok h).
      { simpl in Hs. repeat case_match; done. }
      apply truth_false in Hrq, Hdi. apply Z.ltb_ge in Hti. done.
    + intros (? & [= <-] & Hrq & Hdi & Hti & ->).
      apply truth_false in Hrq, Hdi. apply Z.ltb_ge in Hti.
      by rewrite Hrq, Hdi, Hti.
  - split; [done | by intros (? & ? & _)].
Qed.

End StartOutcome.

Section StartState.
Context {hdr : kernel_headers} (h : host).

(** X7.  Whether [probe] succeeds or fails, the line of its configuration
    is claimed afterwards exactly when [gpio_request] and
    [gpio_direction_input] both succeeded, or when [gpio_request] failed
    and the line was claimed before. *)
Theorem line_claimed_iff_setup_succeeded k pd :
  start_config h (platform_data k) = Some pd →
  gpio_pin pd ∈ gpio_claimed (pps_gpio_probe h k).2 ↔
  (gpio_request_ret h (gpio_pin pd) = 0%Z ∧
   gpio_direction_input_ret h (gpio_pin pd) = 0%Z) ∨
  (gpio_request_ret h (gpio_pin pd) ≠ 0%Z ∧ gpio_pin pd ∈ gpio_claimed k).
Proof.
  intros Hc. destruct (probe_state h k) as (-> & _ & _).
  unfold lines_after. rewrite Hc. rewrite <- !truth_false.
  destruct (truth (gpio_request_ret h _)), (truth (gpio_direction_input_ret h _)).
  - split; [by right | by intros [[? _]|[_ ?]]].
  - split; [by right | by intros [[? _]|[_ ?]]].
  - split.
    + intros [_ Hn]%elem_of_difference. by destruct Hn; apply elem_of_singleton.
    + by intros [[_ ?]|[? _]].
  - split; [by left|]. intros _. by apply elem_of_union_l, elem_of_singleton.
Qed.

(** X8.  After a successful [probe] the interrupt of the line is registered
    with the trigger flags of the configuration and with the new block as
    its [dev_id], the driver data point to the same block, and the handler
    run on that [dev_id] finds an active session: it returns
    [IRQ_HANDLED]. *)
Theorem started_session_is_served k k' :
  pps_gpio_probe h k = (Done Success, k') →
  ∃ pd a d,
    start_config h (platform_data k) = Some pd ∧
    drvdata k' = Some a ∧
    irq d = gpio_to_irq_ret h (gpio_pin pd) ∧
    irq_actions k' !! irq d =
      Some (IrqAction (get_irqf_trigger_flags pd) (name (info d)) (Some a)) ∧
    session k' (Some a) = Some (d, pd) ∧
    (pps_gpio_irq_handler h (irq d) (Some a) k').1 = Done IRQ_HANDLED.
Proof.
  intros Hrun. pose proof (probe_state h k) as Hst. rewrite Hrun in Hst.
  destruct Hst as (_ & _ & Hst). destruct (Hst eq_refl) as (pd & Hc & Hst').
  simpl in Hst'. destruct Hst' as (Hm & _ & Hi & Hdv).
  assert (session k' (Some (fresh (dom (kmem k)))) =
          Some (started_data h pd (fresh (dom (pps_sources k))), pd)) as Hs.
  { unfold session. simpl. rewrite Hm, lookup_insert_eq. reflexivity. }
  exists pd, (fresh (dom (kmem k))),
    (started_data h pd (fresh (dom (pps_sources k)))).
  split; [exact Hc|]. split; [exact Hdv|]. split; [reflexivity|].
  split; [rewrite Hi; apply lookup_insert_eq|]. split; [exact Hs|].
  by rewrite (handler_run h _ _ _ _ _ Hs).
Qed.

(** X9.  Start then stop is a round trip on what the driver allocates and
    registers itself: after [remove] the bookkeeping memory and the PPS
    sources are as before [probe] and the driver data are NULL.  The line
    is still claimed and the interrupt still registered. *)
Theorem start_stop_round_trip k k' :
  pps_gpio_probe h k = (Done Success, k') →
  ∃ k'',
    pps_gpio_remove k' = (Done Success, k'') ∧
    kmem k'' = kmem k ∧
    pps_sources k'' = pps_sources k ∧
    drvdata k'' = None ∧
    gpio_claimed k'' = gpio_claimed k' ∧
    irq_actions k'' = irq_actions k'.
Proof.
  intros Hrun. pose proof (probe_state h k) as Hst. rewrite Hrun in Hst.
  destruct Hst as (_ & _ & Hst). destruct (Hst eq_refl) as (pd & Hc & Hst').
  simpl in Hst'. destruct Hst' as (Hm & Hs & Hi & Hdv).
  eexists. split.
  - eapply remove_run; [exact Hdv| | |].
    + rewrite Hm. apply lookup_insert_eq.
    + reflexivity.
    + rewrite Hs. apply lookup_insert_eq.
  - destruct k' as [g m s i mg pl dv dl tr]. simpl in *. subst m s.
    rewrite !delete_fresh_insert. done.
Qed.

(** X10.  [remove] frees the block the interrupt was registered with and
    leaves the interrupt registered: after start and stop the block the
    driver data pointed to is no longer allocated, and the action of the
    line's interrupt, the same as before the stop, still has that block as
    its [dev_id]. *)
Theorem stop_leaves_interrupt_on_freed_block k k' k'' :
  pps_gpio_probe h k = (Done Success, k') →
  pps_gpio_remove k' = (Done Success, k'') →
  ∃ a d act,
    drvdata k' = Some a ∧
    kmem k' !! a = Some d ∧
    irq_actions k' !! irq d = Some act ∧
    irq_actions k'' !! irq d = Some act ∧
    act_dev_id act = Some a ∧
    kmem k'' !! a = None.
Proof.
  intros Hrun Hstop. pose proof (probe_state h k) as Hst. rewrite Hrun in Hst.
  destruct Hst as (_ & _ & Hst). destruct (Hst eq_refl) as (pd & Hc & Hst').
  simpl in Hst'. destruct Hst' as (Hm & Hs & Hi & Hdv).
  erewrite remove_run in Hstop;
    [| exact Hdv | rewrite Hm; apply lookup_insert_eq | reflexivity
     | rewrite Hs; apply lookup_insert_eq ].
  injection Hstop as <-.
  eexists _, _, _. split; [exact Hdv|].
  split; [rewrite Hm; apply lookup_insert_eq|].
  split; [rewrite Hi; apply lookup_insert_eq|].
  split; [simpl; rewrite Hi; apply lookup_insert_eq|].
  split; [reflexivity|].
  simpl. apply lookup_delete_eq.
Qed.

End StartState.

Section Parts.
Context {hdr : kernel_headers} (h : host).

(** X11.  A failed [probe] leaves no bookkeeping block, no PPS source, no
    interrupt registration and no driver data behind, and has handed the
    consumer nothing: these are as before the call. *)
Theorem failed_start_releases_block_source_irq k k' e :
  pps_gpio_probe h k = (Done (Failure e), k') →
  kmem k' = kmem k ∧ pps_sources k' = pps_sources k ∧
  irq_actions k' = irq_actions k ∧ drvdata k' = drvdata k ∧
  delivered k' = delivered k.
Proof.
  intros Hrun.
  destruct (probe_failure h k k' e Hrun) as (Hm & Hs & Hi & Hd & _).
  pose proof (probe_state h k) as (_ & Hdl & _). rewrite Hrun in Hdl.
  done.
Qed.

(** X12.  [pps_gpio_setup] succeeds exactly when the line is granted and
    made an input, and then the line is claimed; otherwise it returns
    [-EINVAL], has claimed nothing new and, had it been granted the line,
    has freed it again.  Nothing else changes but the call trace. *)
Theorem setup_outcome k pd :
  platform_data k = Some pd →
  ∃ st k',
    pps_gpio_setup h k = (Done st, k') ∧
    (st = Success ↔
       gpio_request_ret h (gpio_pin pd) = 0%Z ∧
       gpio_direction_input_ret h (gpio_pin pd) = 0%Z) ∧
    (st = Success → gpio_claimed k' = {[gpio_pin pd]} ∪ gpio_claimed k) ∧
    (st ≠ Success →
       st = Failure EINVAL ∧
       gpio_claimed k' ⊆ gpio_claimed k ∧
       (gpio_request_ret h (gpio_pin pd) = 0%Z → gpio_pin pd ∉ gpio_claimed k')) ∧
    bookkeeping (with_gpio_claimed (λ _, gpio_claimed k) k') = bookkeeping k ∧
    delivered k' = delivered k.
Proof.
  intros Hpl.
  destruct k as [g m s i mg pl dv dl tr]. simpl in Hpl. subst pl.
  unfold pps_gpio_setup, gpio_request, gpio_direction_input, gpio_free.
  run_K.
  destruct (truth (gpio_request_ret h (gpio_pin pd))) eqn:Hrq;
    simpl; rewrite ?Hrq; simpl.
  - assert (gpio_request_ret h (gpio_pin pd) ≠ 0%Z) as Hnz
      by (intros Hz%truth_false; congruence).
    eexists _, _. split; [reflexivity|]. simpl.
    split; [split; [done | by intros [? _]]|].
    split; [done|]. split; [|split; reflexivity].
    intros _. split; [reflexivity|]. split; [reflexivity | done].
  - apply truth_false in Hrq.
    destruct (truth (gpio_direction_input_ret h (gpio_pin pd))) eqn:Hdi;
      simpl; rewrite ?Hdi; simpl.
    + assert (gpio_direction_input_ret h (gpio_pin pd) ≠ 0%Z) as Hnz
        by (intros Hz%truth_false; congruence).
      eexists _, _. split; [reflexivity|]. simpl.
      split; [split; [done | by intros [_ ?]]|].
      split; [done|]. split; [|split; reflexivity].
      intros _. split; [reflexivity|].
      split.
      * intros x [[Hx%elem_of_singleton|Hx]%elem_of_union Hn]%elem_of_difference;
          [by destruct Hn; apply elem_of_singleton | exact Hx].
      * intros _ [_ Hn]%elem_of_difference. by apply Hn, elem_of_singleton.
    + apply truth_false in Hdi.
      eexists _, _. split; [reflexivity|]. simpl.
      split; [done|]. split; [done|]. split; [done | split; reflexivity].
Qed.

(** X13.  [of_get_pps_gpio_pdata] returns NULL exactly when the kernel has
    no device-tree support, the allocation fails or the tree names no line;
    otherwise the platform data have the line of the tree (not negative),
    the driver's name as label, and [assert_falling_edge] set exactly when
    the node has the [assert-falling-edge] property. *)
Theorem device_tree_configuration k :
  ∃ o,
    (of_get_pps_gpio_pdata h k).1 = Done o ∧
    (o = None ↔
       CONFIG_OF = false ∨ devm_kzalloc_ok h = false ∨ (dt_gpio h < 0)%Z) ∧
    (∀ pd, o = Some pd →
       gpio_pin pd = dt_gpio h ∧ (0 ≤ gpio_pin pd)%Z ∧
       gpio_label pd = Some PPS_GPIO_NAME ∧
       assert_falling_edge pd = dt_assert_falling_edge h).
Proof.
  destruct k as [g m s i mg pl dv dl tr].
  unfold of_get_pps_gpio_pdata, devm_kzalloc, of_get_gpio, of_get_property.
  destruct CONFIG_OF.
  2:{ exists None. split; [reflexivity|]. split; [split; auto|]. done. }
  run_K. destruct (devm_kzalloc_ok h); cbv beta iota.
  2:{ exists None. split; [reflexivity|]. split; [split; auto|]. done. }
  destruct (dt_gpio h <? 0)%Z eqn:Hg; cbv beta iota.
  - apply Z.ltb_lt in Hg.
    exists None. split; [reflexivity|]. split; [split; auto|]. done.
  - apply Z.ltb_ge in Hg.
    destruct (dt_assert_falling_edge h); eexists; (split; [reflexivity|]);
      (split; [split; [done | intros [?|[?|?]]; first [done | lia]]|]);
      intros pd [= <-]; done.
Qed.

(** X14.  [remove] never frees the line and never releases the interrupt:
    whatever the state, and whether it returns or faults, the claimed
    lines, the registered interrupts, the managed resources and the
    platform data are as before. *)
Theorem stop_keeps_line_and_interrupt k :
  let k' := (pps_gpio_remove k).2 in
  gpio_claimed k' = gpio_claimed k ∧ irq_actions k' = irq_actions k ∧
  managed k' = managed k ∧ platform_data k' = platform_data k ∧
  drvdata k' = None.
Proof.
  destruct k as [g m s i mg pl dv dl tr].
  unfold pps_gpio_remove, pps_unregister_source, kfree, platform_get_drvdata,
    platform_set_drvdata.
  run_K. destruct dv as [a|]; [|done].
  destruct (m !! a) as [d|] eqn:Hd; [|done]. cbv beta iota.
  destruct (pps d) as [src|]; [|done]. cbv beta iota.
  destruct (s !! src); [|done]. cbv beta iota.
  rewrite Hd. cbv beta iota. rewrite Hd. done.
Qed.

End Parts.

Section Edges.
Context {hdr : kernel_headers} (h : host).

Lemma handle_edges_state irq_no data d pd n : ∀ k,
  session k data = Some (d, pd) →
  handle_edges h n irq_no data k =
    (Done (replicate n IRQ_HANDLED), after_edges h n k d pd).
Proof.
  induction n as [|n IH]; intros k Hs; [reflexivity|].
  assert (session (after_edge h k d pd) data = Some (d, pd)) as Hs'.
  { rewrite <- Hs. apply session_bookkeeping, after_edge_bookkeeping. }
  simpl. unfold mbind, K_bind. rewrite (handler_run h _ _ _ _ _ Hs).
  fold (@mbind K _). unfold mbind, K_bind. rewrite (IH _ Hs'). reflexivity.
Qed.

Lemma after_edge_trace_length k d pd :
  (length (trace k) < length (trace (after_edge h k d pd)))%nat.
Proof.
  destruct k as [g m s i mg pl dv dl tr]. unfold after_edge. simpl.
  rewrite length_app. simpl. lia.
Qed.

Lemma forwarded_stamp src ts kd :
  Forall (λ c, cap_ts c = ts ∧ cap_pps c = src) (forwarded src ts kd) ∧
  (length (forwarded src ts kd) ≤ 1)%nat.
Proof. destruct kd; simpl; repeat constructor. Qed.

(** X15.  With a clock that never stands still, the events dispatched for
    edges served in a row are in arrival order: their time stamps increase
    strictly, none is earlier than the first edge, each is for the source
    of the session, and there is at most one per edge. *)
Theorem edges_dispatched_in_order irq_no data d pd n : ∀ k,
  session k data = Some (d, pd) →
  (∀ i j, (i < j)%nat → (now h i < now h j)%Z) →
  ∃ k' evs,
    handle_edges h n irq_no data k = (Done (replicate n IRQ_HANDLED), k') ∧
    attempts (trace k') = attempts (trace k) ++ evs ∧
    (length evs ≤ n)%nat ∧
    StronglySorted Z.lt (cap_ts <$> evs) ∧
    Forall (λ c, (edge_time h k ≤ cap_ts c)%Z ∧ cap_pps c = pps d) evs.
Proof.
  intros k Hs Hclock. exists (after_edges h n k d pd).
  rewrite (handle_edges_state _ _ _ _ _ _ Hs).
  cut (∃ evs,
         attempts (trace (after_edges h n k d pd)) = attempts (trace k) ++ evs ∧
         (length evs ≤ n)%nat ∧
         StronglySorted Z.lt (cap_ts <$> evs) ∧
         Forall (λ c, (edge_time h k ≤ cap_ts c)%Z ∧ cap_pps c = pps d) evs).
  { intros (evs & ?). exists evs. by split. }
  clear Hs. revert k. induction n as [|n IH]; intros k.
  - exists []. simpl. rewrite app_nil_r. repeat split; constructor.
  - destruct (IH (after_edge h k d pd)) as (evs & Hat & Hlen & Hsort & Hall).
    pose proof (after_edge_trace_length k d pd) as Hlt.
    pose proof (forwarded_stamp (pps d) (edge_time h k) (edge_kind h k pd))
      as [Hfw Hfwl].
    exists (forwarded (pps d) (edge_time h k) (edge_kind h k pd) ++ evs).
    simpl. rewrite Hat, after_edge_attempts, <- app_assoc.
    split; [reflexivity|]. split; [rewrite length_app; lia|].
    assert (edge_time h k < edge_time h (after_edge h k d pd))%Z as Hnext
      by (apply Hclock, Hlt).
    split.
    + rewrite fmap_app. apply StronglySorted_app_2; [| | exact Hsort].
      2:{ destruct (edge_kind h k pd); simpl; repeat constructor. }
      * intros t1 t2 (c1 & -> & Hc1)%list_elem_of_fmap
          (c2 & -> & Hc2)%list_elem_of_fmap.
        rewrite Forall_forall in Hfw, Hall.
        destruct (Hfw _ Hc1) as [-> _]. destruct (Hall _ Hc2) as [? _]. lia.
    + apply Forall_app. split.
      * eapply Forall_impl; [exact Hfw|]. intros c [-> ->]. split; [lia|done].
      * eapply Forall_impl; [exact Hall|]. intros c [? ?]. split; [lia|done].
Qed.

(** X16.  With clear edges captured no edge is dropped: [n] edges give
    [n] dispatched events. *)
Theorem clear_capture_drops_no_edge irq_no data d pd n : ∀ k,
  session k data = Some (d, pd) →
  capture_clear pd = true →
  ∃ k',
    handle_edges h n irq_no data k = (Done (replicate n IRQ_HANDLED), k') ∧
    length (attempts (trace k')) = (length (attempts (trace k)) + n)%nat.
Proof.
  intros k Hs Hcc. exists (after_edges h n k d pd).
  split; [by apply handle_edges_state|].
  clear Hs. revert k. induction n as [|n IH]; intros k; simpl; [lia|].
  rewrite IH, after_edge_attempts, length_app.
  unfold edge_kind, Classifier. rewrite Hcc.
  destruct (assert_falling_edge pd), (observed_level _); simpl; lia.
Qed.

Lemma after_edges_assert_only d pd n : ∀ k,
  capture_clear pd = false →
  ∃ evs,
    attempts (trace (after_edges h n k d pd)) = attempts (trace k) ++ evs ∧
    Forall (λ c, cap_event c = PPS_CAPTUREASSERT) evs.
Proof.
  intros k Hcc. revert k. induction n as [|n IH]; intros k.
  - exists []. simpl. rewrite app_nil_r. split; constructor.
  - destruct (IH (after_edge h k d pd)) as (evs & Hat & Hall).
    exists (forwarded (pps d) (edge_time h k) (edge_kind h k pd) ++ evs).
    simpl. rewrite Hat, after_edge_attempts, <- app_assoc.
    split; [reflexivity|]. apply Forall_app. split; [|exact Hall].
    unfold edge_kind, Classifier. rewrite Hcc.
    destruct (assert_falling_edge pd), (observed_level _); simpl;
      repeat constructor.
Qed.

(** X17.  Without clear-edge capture only assert events are dispatched,
    however many edges arrive and whatever the line shows. *)
Theorem assert_only_without_clear_capture irq_no data d pd n : ∀ k,
  session k data = Some (d, pd) →
  capture_clear pd = false →
  ∃ k' evs,
    handle_edges h n irq_no data k = (Done (replicate n IRQ_HANDLED), k') ∧
    attempts (trace k') = attempts (trace k) ++ evs ∧
    Forall (λ c, cap_event c = PPS_CAPTUREASSERT) evs.
Proof.
  intros k Hs Hcc.
  destruct (after_edges_assert_only d pd n k Hcc) as (evs & Hat & Hall).
  exists (after_edges h n k d pd), evs.
  split; [by apply handle_edges_state | by split].
Qed.

(** X19.  A session started from the device tree reports assert edges
    only: its interrupt is requested for the one edge the tree names
    (falling with the [assert-falling-edge] property, rising without), and
    whatever edges arrive, every event dispatched is an assert event. *)
Theorem device_tree_session_reports_assert_only k k' n :
  dt_match h = true →
  pps_gpio_probe h k = (Done Success, k') →
  ∃ a irq_no act k'' evs,
    drvdata k' = Some a ∧
    irq_actions k' !! irq_no = Some act ∧
    act_dev_id act = Some a ∧
    act_flags act = (if dt_assert_falling_edge h
                     then IRQF_TRIGGER_FALLING else IRQF_TRIGGER_RISING) ∧
    handle_edges h n irq_no (Some a) k' =
      (Done (replicate n IRQ_HANDLED), k'') ∧
    attempts (trace k'') = attempts (trace k') ++ evs ∧
    Forall (λ c, cap_event c = PPS_CAPTUREASSERT) evs.
Proof.
  intros Hdt Hrun. pose proof (probe_state h k) as Hst. rewrite Hrun in Hst.
  destruct Hst as (_ & _ & Hst). destruct (Hst eq_refl) as (pd & Hc & Hst').
  simpl in Hst'. destruct Hst' as (Hm & _ & Hi & Hdv).
  unfold start_config, dt_config in Hc. rewrite Hdt in Hc.
  destruct (CONFIG_OF && _ && _); [|done]. injection Hc as <-.
  set (pd := PlatformData _ _ _ _) in *.
  set (d := started_data h pd _) in *.
  assert (session k' (Some (fresh (dom (kmem k)))) = Some (d, pd)) as Hs.
  { unfold session. simpl. rewrite Hm, lookup_insert_eq. reflexivity. }
  destruct (after_edges_assert_only d pd n k' eq_refl) as (evs & Hat & Hall).
  eexists _, _, _, (after_edges h n k' d pd), evs.
  split; [exact Hdv|]. split; [rewrite Hi; apply lookup_insert_eq|].
  split; [reflexivity|]. split; [reflexivity|].
  split; [by apply handle_edges_state | by split].
Qed.

(** X18.  The trigger flags are some of the two edge flags and never none
    of them; with [capture_clear] set they are both edges whichever the
    polarity. *)
Theorem trigger_flags_are_edges pd :
  headers_ok →
  has_flag (IRQF_TRIGGER_RISING .|. IRQF_TRIGGER_FALLING)
    (get_irqf_trigger_flags pd) ∧
  get_irqf_trigger_flags pd ≠ 0%Z ∧
  (capture_clear pd = true →
   get_irqf_trigger_flags pd = IRQF_TRIGGER_RISING .|. IRQF_TRIGGER_FALLING).
Proof.
  intros [Hr Hf Hrf _ _]. unfold get_irqf_trigger_flags.
  assert (IRQF_TRIGGER_FALLING .&. IRQF_TRIGGER_RISING = 0%Z) as Hfr
    by (by rewrite Z.land_comm).
  destruct (assert_falling_edge pd), (capture_clear pd); cbv zeta;
    rewrite ?Hfr, ?Z.land_diag, ?(truth_nonzero _ Hr); cbn [truth Z.eqb negb];
    repeat split; intros; try done; auto with flags;
    rewrite ?(Z.lor_comm IRQF_TRIGGER_FALLING IRQF_TRIGGER_RISING);
    try reflexivity; try apply has_flag_self;
    intros [? ?]%Z.lor_eq_0_iff; done.
Qed.

End Edges.

(** ** The further properties at concrete inputs *)

Lemma device_tree_overrides_platform_data_witness :
  dt_match dt_broken_host = true ∧
  platform_data (pps_gpio_probe (hdr:=linux_headers) dt_broken_host boot_kernel).2
    = dt_config (hdr:=linux_headers) dt_broken_host ∧
  (dt_config (hdr:=linux_headers) dt_broken_host = None →
   (pps_gpio_probe (hdr:=linux_headers) dt_broken_host boot_kernel).1
     = Done (Failure ENODEV)).
Proof.
  split; [reflexivity|].
  apply (device_tree_overrides_platform_data (hdr:=linux_headers)
           dt_broken_host boot_kernel).
  reflexivity.
Defined.

Lemma line_claimed_iff_setup_succeeded_witness :
  start_config (hdr:=linux_headers) no_irq_host (platform_data boot_kernel)
    = Some board_pdata ∧
  (gpio_pin board_pdata ∈
     gpio_claimed (pps_gpio_probe (hdr:=linux_headers) no_irq_host boot_kernel).2
   ↔
   (gpio_request_ret no_irq_host (gpio_pin board_pdata) = 0%Z ∧
    gpio_direction_input_ret no_irq_host (gpio_pin board_pdata) = 0%Z) ∨
   (gpio_request_ret no_irq_host (gpio_pin board_pdata) ≠ 0%Z ∧
    gpio_pin board_pdata ∈ gpio_claimed boot_kernel)).
Proof.
  split; [reflexivity|].
  apply (line_claimed_iff_setup_succeeded (hdr:=linux_headers) no_irq_host
           boot_kernel board_pdata).
  reflexivity.
Defined.

Lemma started_session_is_served_witness :
  pps_gpio_probe (hdr:=linux_headers) good_host boot_kernel
    = (Done Success, started_kernel) ∧
  ∃ pd a d,
    start_config (hdr:=linux_headers) good_host (platform_data boot_kernel)
      = Some pd ∧
    drvdata started_kernel = Some a ∧
    irq d = gpio_to_irq_ret good_host (gpio_pin pd) ∧
    irq_actions started_kernel !! irq d =
      Some (IrqAction (get_irqf_trigger_flags (hdr:=linux_headers) pd)
              (name (info d)) (Some a)) ∧
    session started_kernel (Some a) = Some (d, pd) ∧
    (pps_gpio_irq_handler (hdr:=linux_headers) good_host (irq d) (Some a)
       started_kernel).1 = Done IRQ_HANDLED.
Proof.
  split; [vm_compute; reflexivity|].
  apply (started_session_is_served (hdr:=linux_headers) good_host boot_kernel
           started_kernel).
  vm_compute; reflexivity.
Defined.

Lemma start_stop_round_trip_witness :
  pps_gpio_probe (hdr:=linux_headers) good_host boot_kernel
    = (Done Success, started_kernel) ∧
  ∃ k'',
    pps_gpio_remove started_kernel = (Done Success, k'') ∧
    kmem k'' = kmem boot_kernel ∧
    pps_sources k'' = pps_sources boot_kernel ∧
    drvdata k'' = None ∧
    gpio_claimed k'' = gpio_claimed started_kernel ∧
    irq_actions k'' = irq_actions started_kernel.
Proof.
  split; [vm_compute; reflexivity|].
  apply (start_stop_round_trip (hdr:=linux_headers) good_host boot_kernel
           started_kernel).
  vm_compute; reflexivity.
Defined.

Lemma stop_leaves_interrupt_on_freed_block_witness :
  pps_gpio_probe (hdr:=linux_headers) good_host boot_kernel
    = (Done Success, started_kernel) ∧
  pps_gpio_remove started_kernel = (Done Success, restopped_kernel) ∧
  ∃ a d act,
    drvdata started_kernel = Some a ∧
    kmem started_kernel !! a = Some d ∧
    irq_actions started_kernel !! irq d = Some act ∧
    irq_actions restopped_kernel !! irq d = Some act ∧
    act_dev_id act = Some a ∧
    kmem restopped_kernel !! a = None.
Proof.
  split; [vm_compute; reflexivity|]. split; [vm_compute; reflexivity|].
  apply (stop_leaves_interrupt_on_freed_block (hdr:=linux_headers) good_host
           boot_kernel started_kernel restopped_kernel);
    vm_compute; reflexivity.
Defined.

Lemma failed_start_releases_block_source_irq_witness :
  pps_gpio_probe (hdr:=linux_headers) no_irq_host boot_kernel
    = (Done (Failure EINVAL), leaky_kernel) ∧
  kmem leaky_kernel = kmem boot_kernel ∧
  pps_sources leaky_kernel = pps_sources boot_kernel ∧
  irq_actions leaky_kernel = irq_actions boot_kernel ∧
  drvdata leaky_kernel = drvdata boot_kernel ∧
  delivered leaky_kernel = delivered boot_kernel.
Proof.
  split; [vm_compute; reflexivity|].
  apply (failed_start_releases_block_source_irq (hdr:=linux_headers)
           no_irq_host boot_kernel leaky_kernel EINVAL).
  vm_compute; reflexivity.
Defined.

Lemma setup_outcome_witness :
  platform_data boot_kernel = Some board_pdata ∧
  ∃ st k',
    pps_gpio_setup good_host boot_kernel = (Done st, k') ∧
    (st = Success ↔
       gpio_request_ret good_host (gpio_pin board_pdata) = 0%Z ∧
       gpio_direction_input_ret good_host (gpio_pin board_pdata) = 0%Z) ∧
    (st = Success →
       gpio_claimed k' = {[gpio_pin board_pdata]} ∪ gpio_claimed boot_kernel) ∧
    (st ≠ Success →
       st = Failure EINVAL ∧
       gpio_claimed k' ⊆ gpio_claimed boot_kernel ∧
       (gpio_request_ret good_host (gpio_pin board_pdata) = 0%Z →
        gpio_pin board_pdata ∉ gpio_claimed k')) ∧
    bookkeeping (with_gpio_claimed (λ _, gpio_claimed boot_kernel) k')
      = bookkeeping boot_kernel ∧
    delivered k' = delivered boot_kernel.
Proof.
  split; [reflexivity|].
  apply (setup_outcome good_host boot_kernel board_pdata). reflexivity.
Defined.

Lemma edges_dispatched_in_order_witness :
  session running_kernel (Some 1%positive) = Some (session_data, board_pdata) ∧
  (∀ i j, (i < j)%nat → (now good_host i < now good_host j)%Z) ∧
  ∃ k' evs,
    handle_edges (hdr:=linux_headers) good_host 5 149 (Some 1%positive)
      running_kernel = (Done (replicate 5 IRQ_HANDLED), k') ∧
    attempts (trace k') = attempts (trace running_kernel) ++ evs ∧
    (length evs ≤ 5)%nat ∧
    StronglySorted Z.lt (cap_ts <$> evs) ∧
    Forall (λ c, (edge_time good_host running_kernel ≤ cap_ts c)%Z ∧
                 cap_pps c = pps session_data) evs.
Proof.
  split; [reflexivity|]. split; [intros i j Hij; simpl; lia|].
  apply (edges_dispatched_in_order (hdr:=linux_headers) good_host 149
           (Some 1%positive) session_data board_pdata 5 running_kernel).
  - reflexivity.
  - intros i j Hij; simpl; lia.
Defined.

Lemma clear_capture_drops_no_edge_witness :
  session running_kernel (Some 1%positive) = Some (session_data, board_pdata) ∧
  capture_clear board_pdata = true ∧
  ∃ k',
    handle_edges (hdr:=linux_headers) good_host 5 149 (Some 1%positive)
      running_kernel = (Done (replicate 5 IRQ_HANDLED), k') ∧
    length (attempts (trace k')) =
      (length (attempts (trace running_kernel)) + 5)%nat.
Proof.
  split; [reflexivity|]. split; [reflexivity|].
  apply (clear_capture_drops_no_edge (hdr:=linux_headers) good_host 149
           (Some 1%positive) session_data board_pdata 5 running_kernel);
    reflexivity.
Defined.

Lemma assert_only_without_clear_capture_witness :
  session assert_only_kernel (Some 1%positive)
    = Some (assert_only_data, assert_only_pdata) ∧
  capture_clear assert_only_pdata = false ∧
  ∃ k' evs,
    handle_edges (hdr:=linux_headers) good_host 5 149 (Some 1%positive)
      assert_only_kernel = (Done (replicate 5 IRQ_HANDLED), k') ∧
    attempts (trace k') = attempts (trace assert_only_kernel) ++ evs ∧
    Forall (λ c, cap_event c = 1%Z) evs.
Proof.
  split; [reflexivity|]. split; [reflexivity|].
  apply (assert_only_without_clear_capture (hdr:=linux_headers) good_host 149
           (Some 1%positive) assert_only_data assert_only_pdata 5
           assert_only_kernel); reflexivity.
Defined.

Lemma trigger_flags_are_edges_witness :
  @headers_ok linux_headers ∧
  has_flag 3 (get_irqf_trigger_flags (hdr:=linux_headers) assert_only_pdata) ∧
  get_irqf_trigger_flags (hdr:=linux_headers) assert_only_pdata ≠ 0%Z ∧
  (capture_clear assert_only_pdata = true →
   get_irqf_trigger_flags (hdr:=linux_headers) assert_only_pdata = 3%Z).
Proof.
  split; [exact linux_headers_ok|].
  apply (trigger_flags_are_edges (hdr:=linux_headers) assert_only_pdata).
  exact linux_headers_ok.
Defined.

Lemma device_tree_session_reports_assert_only_witness :
  dt_match dt_host = true ∧
  pps_gpio_probe (hdr:=linux_headers) dt_host boot_kernel
    = (Done Success, dt_started_kernel) ∧
  ∃ a irq_no act k'' evs,
    drvdata dt_started_kernel = Some a ∧
    irq_actions dt_started_kernel !! irq_no = Some act ∧
    act_dev_id act = Some a ∧
    act_flags act = 2%Z ∧
    handle_edges (hdr:=linux_headers) dt_host 4 irq_no (Some a)
      dt_started_kernel = (Done (replicate 4 IRQ_HANDLED), k'') ∧
    attempts (trace k'') = attempts (trace dt_started_kernel) ++ evs ∧
    Forall (λ c, cap_event c = 1%Z) evs.
Proof.
  split; [reflexivity|]. split; [vm_compute; reflexivity|].
  apply (device_tree_session_reports_assert_only (hdr:=linux_headers) dt_host
           boot_kernel dt_started_kernel 4).
  - reflexivity.
  - vm_compute; reflexivity.
Defined.

End PpsGpio.
